(** * wetterdienst: NOAA GHCN provider, chunked reader, parameter registry

    A shallow embedding of

    - [wetterdienst/util/io.py]                    ([read_in_chunks]),
    - [wetterdienst/provider/noaa/ghcn/parameter.py] ([NoaaGhcnParameter.DAILY]),
    - [wetterdienst/provider/noaa/ghcn/api.py]     ([NoaaGhcnValues],
      [NoaaGhcnRequest]),
    - [tests/provider/dwd/observation/test_parameters.py],

    together with the properties stated about them.  Python [str] values are
    modelled as [string] (the GHCN documents are ASCII), Python [int] as [Z]
    or [nat] where the source only uses literals that are non-negative,
    pandas frames as a list of column labels and a list of rows of cells. *)

From Stdlib Require Import List Bool Arith ZArith Lia.
From Stdlib Require Import Strings.Ascii Strings.String Strings.Byte.
From Stdlib Require Import Permutation Sorted.
Import ListNotations.

Set Implicit Arguments.

(* ------------------------------------------------------------------ *)
(** ** Python strings *)

Module PyStr.

(** [c.lower()] / [c.upper()] on one ASCII character. *)
Definition lower_char (c : ascii) : ascii :=
  let n := nat_of_ascii c in
  if ((65 <=? n) && (n <=? 90))%nat then ascii_of_nat (n + 32) else c.

Definition upper_char (c : ascii) : ascii :=
  let n := nat_of_ascii c in
  if ((97 <=? n) && (n <=? 122))%nat then ascii_of_nat (n - 32) else c.

Fixpoint lower (s : string) : string :=
  match s with
  | EmptyString => EmptyString
  | String c r => String (lower_char c) (lower r)
  end.

Fixpoint upper (s : string) : string :=
  match s with
  | EmptyString => EmptyString
  | String c r => String (upper_char c) (upper r)
  end.

(** [c in chars] *)
Definition char_in (chars : list ascii) (c : ascii) : bool :=
  existsb (Ascii.eqb c) chars.

(** [s.lstrip(chars)] *)
Fixpoint lstrip (chars : list ascii) (s : string) : string :=
  match s with
  | EmptyString => EmptyString
  | String c r => if char_in chars c then lstrip chars r else s
  end.

(** [s.rstrip(chars)] *)
Fixpoint rstrip (chars : list ascii) (s : string) : string :=
  match s with
  | EmptyString => EmptyString
  | String c r =>
      match rstrip chars r with
      | EmptyString => if char_in chars c then EmptyString
                       else String c EmptyString
      | r' => String c r'
      end
  end.

(** [s.strip(chars)] *)
Definition strip (chars : list ascii) (s : string) : string :=
  rstrip chars (lstrip chars s).

(** [s[a:b]] for non-negative [a], [b]: the slice is clamped to the string. *)
Definition slice (a b : nat) (s : string) : string :=
  substring a (b - a) s.

(** [x in xs] on strings. *)
Definition str_in (x : string) (xs : list string) : bool :=
  existsb (String.eqb x) xs.

End PyStr.

(* ------------------------------------------------------------------ *)
(** ** [wetterdienst/util/io.py] *)

Module Io.

Definition bytes := list byte.

(** [not data] for a bytes object. *)
Definition falsy (data : bytes) : bool :=
  match data with [] => true | _ => false end.

Section Generator.

(** A file object is whatever has a [read(size)] method: a state and a
    transition that returns the data read. *)
Variable file_object : Type.
Variable read : file_object -> Z -> bytes * file_object.

(** The suspended generator: still inside the [while True] loop, or
    returned (after the [break]). *)
Inductive generator : Type :=
| Running (f : file_object)
| Finished (f : file_object).

(** [read_in_chunks(file_object, chunk_size)] creates the generator; no
    code of the body runs before the first [next]. *)
Definition read_in_chunks (f : file_object) (chunk_size : Z) : generator :=
  Running f.

(** One [next(gen)]: [None] is [StopIteration]. *)
Definition next (chunk_size : Z) (g : generator)
  : option bytes * generator :=
  match g with
  | Running f =>
      let (data, f') := read f chunk_size in
      if falsy data then (None, Finished f')
      else (Some data, Running f')
  | Finished f => (None, Finished f)
  end.

(** [list(gen)], with a bound on the number of [next] calls. *)
Fixpoint drain (fuel : nat) (chunk_size : Z) (g : generator)
  : option (list bytes * generator) :=
  match fuel with
  | O => None
  | S k =>
      match next chunk_size g with
      | (None, g') => Some ([], g')
      | (Some data, g') =>
          match drain k chunk_size g' with
          | Some (ds, g'') => Some (data :: ds, g'')
          | None => None
          end
      end
  end.

(** The file object after [k] calls of [read(chunk_size)], and what call
    number [k] (from 0) returns. *)
Fixpoint after_reads (k : nat) (chunk_size : Z) (f : file_object)
  : file_object :=
  match k with
  | O => f
  | S k' => after_reads k' chunk_size (snd (read f chunk_size))
  end.

Definition nth_read (k : nat) (chunk_size : Z) (f : file_object) : bytes :=
  fst (read (after_reads k chunk_size f) chunk_size).

(** What the first [k] reads return, in order. *)
Fixpoint reads (k : nat) (chunk_size : Z) (f : file_object) : list bytes :=
  match k with
  | O => []
  | S k' =>
      fst (read f chunk_size)
        :: reads k' chunk_size (snd (read f chunk_size))
  end.

(** Everything read from the source by the first [k] reads. *)
Definition content_read (k : nat) (chunk_size : Z) (f : file_object)
  : bytes :=
  List.concat (reads k chunk_size f).

(** A finite source: some read returns an empty result. *)
Definition finite_source (chunk_size : Z) (f : file_object) : Prop :=
  exists k, nth_read k chunk_size f = [].

(** The file object honours the size argument. *)
Definition read_bounded (chunk_size : Z) : Prop :=
  forall f, (Z.of_nat (List.length (fst (read f chunk_size))) <= chunk_size)%Z.

End Generator.

(** [io.BytesIO]: a buffer and a position. *)
Record BytesIO : Type := mkBytesIO { buffer : bytes; pos : nat }.

(** [BytesIO.read(size)]: a negative size reads to the end. *)
Definition BytesIO_read (f : BytesIO) (size : Z) : bytes * BytesIO :=
  let rest := skipn (pos f) (buffer f) in
  if (size <? 0)%Z then
    (rest, mkBytesIO (buffer f) (pos f + List.length rest))
  else
    let data := firstn (Z.to_nat size) rest in
    (data, mkBytesIO (buffer f) (pos f + List.length data)).

End Io.

(* ------------------------------------------------------------------ *)
(** ** Exceptions and results *)

(** The exceptions that the modelled code, pandas and the spec name. *)
Inductive exception : Type :=
| ValueError        (* pandas: length mismatch when setting the columns *)
| AttributeError    (* pandas: [.str] on a column that holds no strings *)
| KeyError          (* pandas: no such column label *)
| ValidationError
| LookupError
| NetworkError
| ParseError
| EmptyDataError.   (* pandas: no data left to parse *)

Inductive result (A : Type) : Type :=
| Ok (a : A)
| Raise (e : exception).

Arguments Ok {A} a.
Arguments Raise {A} e.

Definition bind_result {A B} (r : result A) (k : A -> result B) : result B :=
  match r with
  | Ok a => k a
  | Raise e => Raise e
  end.

Declare Scope result_scope.
Delimit Scope result_scope with result.
Notation "x <- c ;; k" := (bind_result c (fun x => k))
  (at level 61, c at next level, right associativity) : result_scope.

(* ------------------------------------------------------------------ *)
(** ** The part of pandas that [api.py] uses *)

Module Pandas.

(** A cell of a frame: a Python [str], a number, or the missing value.
    The GHCN documents hold integral numbers only. *)
Inductive cell : Type :=
| CStr (s : string)
| CNum (z : Z)
| CNaN.

(** A column label: [read_csv(header=None)] and [read_fwf(header=None)]
    number the columns; [df.columns = names] renames them. *)
Inductive label : Type :=
| LInt (n : nat)
| LStr (s : string).

Definition label_eqb (a b : label) : bool :=
  match a, b with
  | LInt n, LInt m => Nat.eqb n m
  | LStr s, LStr t => String.eqb s t
  | _, _ => false
  end.

Record DataFrame : Type := mkDataFrame {
  columns : list label;
  rows : list (list cell)
}.

(** Every row has one cell per column. *)
Definition rectangular (df : DataFrame) : Prop :=
  Forall (fun r => List.length r = List.length (columns df)) (rows df).

(** [xs[:-k]] *)
Definition drop_last {A} (k : nat) (xs : list A) : list A :=
  firstn (List.length xs - k) xs.

(** [df.iloc[:, :-k]] *)
Definition iloc_cols_drop_last (k : nat) (df : DataFrame) : DataFrame :=
  mkDataFrame (drop_last k (columns df)) (map (drop_last k) (rows df)).

(** [df.columns = names]: pandas raises [ValueError] on a length mismatch. *)
Definition set_columns (names : list label) (df : DataFrame)
  : result DataFrame :=
  if Nat.eqb (List.length names) (List.length (columns df))
  then Ok (mkDataFrame names (rows df))
  else Raise ValueError.

(** Position of a column label. *)
Fixpoint get_loc (l : label) (cols : list label) : option nat :=
  match cols with
  | [] => None
  | c :: cs => if label_eqb l c then Some O
               else option_map S (get_loc l cs)
  end.

(** [df.loc[:, l]]: the column as a series. *)
Definition loc_col (l : label) (df : DataFrame) : result (list cell) :=
  match get_loc l (columns df) with
  | Some i => Ok (map (fun r => nth i r CNaN) (rows df))
  | None => Raise KeyError
  end.

Definition is_str (c : cell) : bool :=
  match c with CStr _ => true | _ => false end.

(** [series.str]: the accessor exists for a series that holds strings
    (or has no values at all), not for a numeric one. *)
Definition has_str_accessor (s : list cell) : bool :=
  match s with
  | [] => true
  | _ => existsb is_str s
  end.

Definition lower_cell (c : cell) : cell :=
  match c with
  | CStr s => CStr (PyStr.lower s)
  | _ => CNaN
  end.

(** [series.str.lower()]: strings are lowercased, anything else becomes
    the missing value. *)
Definition str_lower (s : list cell) : result (list cell) :=
  if has_str_accessor s then Ok (map lower_cell s)
  else Raise AttributeError.

(** Replace position [i] of a row. *)
Fixpoint set_nth {A} (i : nat) (x : A) (xs : list A) : list A :=
  match xs, i with
  | [], _ => []
  | _ :: r, O => x :: r
  | y :: r, S j => y :: set_nth j x r
  end.

Fixpoint assign_rows (i : nat) (rs : list (list cell)) (s : list cell)
  : list (list cell) :=
  match rs, s with
  | r :: rs', c :: s' => set_nth i c r :: assign_rows i rs' s'
  | _, _ => rs
  end.

(** [df.loc[:, l] = series] for an existing column [l] and a series on the
    frame's own index. *)
Definition set_loc_col (l : label) (s : list cell) (df : DataFrame)
  : result DataFrame :=
  match get_loc l (columns df) with
  | Some i => Ok (mkDataFrame (columns df) (assign_rows i (rows df) s))
  | None => Raise KeyError
  end.

(** The strings that [read_fwf] and [read_csv] take for a missing value
    (pandas' [STR_NA_VALUES]); [dtype=str] does not switch this off. *)
Definition STR_NA_VALUES : list string :=
  [ "-1.#IND"; "1.#QNAN"; "1.#IND"; "-1.#QNAN"; "#N/A N/A"; "#N/A"; "N/A";
    "n/a"; "NA"; "<NA>"; "#NA"; "NULL"; "null"; "NaN"; "-NaN"; "nan";
    "-nan"; EmptyString ]%string.

(** The characters [read_fwf] strips from a field when no delimiter is
    given: newline, carriage return, tab, space. *)
Definition fwf_delimiter : list ascii :=
  [ ascii_of_nat 10; ascii_of_nat 13; ascii_of_nat 9; ascii_of_nat 32 ].

(** One line of a fixed-width file: [line[from:to].strip(delimiter)] for
    each column specification. *)
Definition fwf_fields (colspecs : list (nat * nat)) (line : string)
  : list string :=
  map (fun '(from, to) =>
         PyStr.strip fwf_delimiter (PyStr.slice from to line)) colspecs.

(** With [dtype=str] a field stays text unless it stands for a missing
    value. *)
Definition str_cell (field : string) : cell :=
  if PyStr.str_in field STR_NA_VALUES then CNaN else CStr field.

(** The characters [str.strip()] strips when it is given none: the ASCII
    white space (tab to carriage return, the four separators, space). *)
Definition py_whitespace : list ascii :=
  map ascii_of_nat [9; 10; 11; 12; 13; 28; 29; 30; 31; 32].

(** [not e.strip()] for a field. *)
Definition blank_field (e : string) : bool :=
  String.eqb (PyStr.strip py_whitespace e) EmptyString.

(** A line of a fixed-width file that the reader takes for empty
    ([skip_blank_lines] is on): none of its fields holds anything. *)
Definition empty_line (fields : list string) : bool :=
  forallb blank_field fields.

(** [pd.read_fwf(file, dtype=str, header=None, colspecs=colspecs)] on the
    lines of the file: every line is cut into its fields, the lines whose
    fields are all blank are dropped, and what is left makes the rows;
    with no line left pandas raises [EmptyDataError]. *)
Definition read_fwf (colspecs : list (nat * nat)) (lines : list string)
  : result DataFrame :=
  match filter (fun fields => negb (empty_line fields))
               (map (fwf_fields colspecs) lines) with
  | [] => Raise EmptyDataError
  | kept =>
      Ok (mkDataFrame
            (map LInt (seq 0 (List.length colspecs)))
            (map (map str_cell) kept))
  end.

(** The cell of row [i] under column [l]. *)
Definition at_ (i : nat) (l : label) (df : DataFrame) : option cell :=
  match get_loc l (columns df), nth_error (rows df) i with
  | Some j, Some r => nth_error r j
  | _, _ => None
  end.

End Pandas.

(* ------------------------------------------------------------------ *)
(** ** Metadata enumerations *)

(** Modelled from the spec: [wetterdienst.metadata.resolution.Resolution]
    is not among the sources; the spec names the temporal granularities
    "daily, hourly" and the like. *)
Inductive Resolution : Type :=
| MINUTE_1 | MINUTE_10 | HOURLY | SUBDAILY | DAILY | MONTHLY | ANNUAL.

(** Modelled from the spec: [wetterdienst.metadata.period.Period] is not
    among the sources; the spec names "historical, recent". *)
Inductive Period : Type :=
| HISTORICAL | RECENT | NOW | FUTURE.

Definition Resolution_eqb (a b : Resolution) : bool :=
  match a, b with
  | MINUTE_1, MINUTE_1 | MINUTE_10, MINUTE_10 | HOURLY, HOURLY
  | SUBDAILY, SUBDAILY | DAILY, DAILY | MONTHLY, MONTHLY
  | ANNUAL, ANNUAL => true
  | _, _ => false
  end.

Definition Period_eqb (a b : Period) : bool :=
  match a, b with
  | HISTORICAL, HISTORICAL | RECENT, RECENT | NOW, NOW
  | FUTURE, FUTURE => true
  | _, _ => false
  end.

(** Modelled from the spec: [wetterdienst.metadata.columns.Columns] is not
    among the sources; the values are the column names the spec gives for
    the raw observation frame and for the station listing. *)
Module Columns.
Definition STATION_ID : string := "station_id".
Definition DATE : string := "date".
Definition PARAMETER : string := "parameter_code".
Definition VALUE : string := "value".
Definition QUALITY : string := "quality_flag".
Definition LATITUDE : string := "latitude".
Definition LONGITUDE : string := "longitude".
Definition HEIGHT : string := "height".
Definition NAME : string := "name".
End Columns.

(* ------------------------------------------------------------------ *)
(** ** [wetterdienst/provider/noaa/ghcn/parameter.py] *)

Module NoaaGhcnParameter.

(** [class DAILY(Enum)]: the members in definition order, each a canonical
    name and its value, the agency code. *)
Definition DAILY : list (string * string) :=
  [
    ("PRECIPITATION_HEIGHT", "prcp");
    ("SNOW_DEPTH_NEW", "snow");
    ("SNOW_DEPTH", "snwd");
    ("TEMPERATURE_AIR_MAX_200", "tmax");
    ("TEMPERATURE_AIR_MIN_200", "tmin");
    ("CLOUD_COVER_TOTAL_MIDNIGHT_TO_MIDNIGHT", "acmc");
    ("CLOUD_COVER_TOTAL_MIDNIGHT_TO_MIDNIGHT_MANUAL", "acmh");
    ("CLOUD_COVER_TOTAL_SUNRISE_TO_SUNSET", "acsc");
    ("CLOUD_COVER_TOTAL_SUNRISE_TO_SUNSET_MANUAL", "acsh");
    ("WIND_SPEED", "awnd");
    ("COUNT_DAYS_MULTIDAY_EVAPORATION", "daev");
    ("COUNT_DAYS_MULTIDAY_PRECIPITATION", "dapr");
    ("COUNT_DAYS_MULTIDAY_SNOW_DEPTH_NEW", "dasf");
    ("COUNT_DAYS_MULTIDAY_TEMPERATURE_AIR_MIN_200", "datn");
    ("COUNT_DAYS_MULTIDAY_TEMPERATURE_AIR_MAX_200", "datx");
    ("COUNT_DAYS_MULTIDAY_WIND_MOVEMENT", "dawm");
    ("COUNT_DAYS_MULTIDAY_PRECIPITATION_HEIGHT_GT_0", "dwpr");
    ("EVAPORATION_HEIGHT", "evap");
    ("TIME_WIND_GUST_MAX_1MILE_OR_1MIN", "fmtm");
    ("FROZEN_GROUND_LAYER_BASE", "frgb");
    ("FROZEN_GROUND_LAYER_TOP", "frgt");
    ("FROZEN_GROUND_LAYER_THICKNESS", "frth");
    ("DISTANCE_RIVER_GAUGE_HEIGHT", "gaht");
    ("EVAPORATION_HEIGHT_MULTIDAY", "mdev");
    ("PRECIPITATION_HEIGHT_MULTIDAY", "mdpr");
    ("SNOW_DEPTH_NEW_MULTIDAY", "mdsf");
    ("TEMPERATURE_AIR_MIN_200_MULTIDAY", "mdtn");
    ("TEMPERATURE_AIR_MAX_200_MULTIDAY", "mdtx");
    ("WIND_MOVEMENT_MULTIDAY", "mdwm");
    ("TEMPERATURE_WATER_EVAPORATION_PAN_MIN", "mnpn");
    ("TEMPERATURE_WATER_EVAPORATION_PAN_MAX", "mxpn");
    ("TIME_WIND_GUST_MAX", "pgtm");
    ("SUNSHINE_DURATION_RELATIVE", "psun");
    ("TEMPERATURE_SOIL_MIN_UNKNOWN_005", "sn01");
    ("TEMPERATURE_SOIL_MIN_UNKNOWN_010", "sn02");
    ("TEMPERATURE_SOIL_MIN_UNKNOWN_020", "sn03");
    ("TEMPERATURE_SOIL_MIN_UNKNOWN_050", "sn04");
    ("TEMPERATURE_SOIL_MIN_UNKNOWN_100", "sn05");
    ("TEMPERATURE_SOIL_MIN_UNKNOWN_150", "sn06");
    ("TEMPERATURE_SOIL_MIN_UNKNOWN_180", "sn07");
    ("TEMPERATURE_SOIL_MAX_UNKNOWN_005", "sx01");
    ("TEMPERATURE_SOIL_MAX_UNKNOWN_010", "sx02");
    ("TEMPERATURE_SOIL_MAX_UNKNOWN_020", "sx03");
    ("TEMPERATURE_SOIL_MAX_UNKNOWN_050", "sx04");
    ("TEMPERATURE_SOIL_MAX_UNKNOWN_100", "sx05");
    ("TEMPERATURE_SOIL_MAX_UNKNOWN_150", "sx06");
    ("TEMPERATURE_SOIL_MAX_UNKNOWN_180", "sx07");
    ("TEMPERATURE_SOIL_MIN_GRASS_005", "sn11");
    ("TEMPERATURE_SOIL_MIN_GRASS_010", "sn12");
    ("TEMPERATURE_SOIL_MIN_GRASS_020", "sn13");
    ("TEMPERATURE_SOIL_MIN_GRASS_050", "sn14");
    ("TEMPERATURE_SOIL_MIN_GRASS_100", "sn15");
    ("TEMPERATURE_SOIL_MIN_GRASS_150", "sn16");
    ("TEMPERATURE_SOIL_MIN_GRASS_180", "sn17");
    ("TEMPERATURE_SOIL_MAX_GRASS_005", "sx11");
    ("TEMPERATURE_SOIL_MAX_GRASS_010", "sx12");
    ("TEMPERATURE_SOIL_MAX_GRASS_020", "sx13");
    ("TEMPERATURE_SOIL_MAX_GRASS_050", "sx14");
    ("TEMPERATURE_SOIL_MAX_GRASS_100", "sx15");
    ("TEMPERATURE_SOIL_MAX_GRASS_150", "sx16");
    ("TEMPERATURE_SOIL_MAX_GRASS_180", "sx17");
    ("TEMPERATURE_SOIL_MIN_FALLOW_005", "sn21");
    ("TEMPERATURE_SOIL_MIN_FALLOW_010", "sn22");
    ("TEMPERATURE_SOIL_MIN_FALLOW_020", "sn23");
    ("TEMPERATURE_SOIL_MIN_FALLOW_050", "sn24");
    ("TEMPERATURE_SOIL_MIN_FALLOW_100", "sn25");
    ("TEMPERATURE_SOIL_MIN_FALLOW_150", "sn26");
    ("TEMPERATURE_SOIL_MIN_FALLOW_180", "sn27");
    ("TEMPERATURE_SOIL_MAX_FALLOW_005", "sx21");
    ("TEMPERATURE_SOIL_MAX_FALLOW_010", "sx22");
    ("TEMPERATURE_SOIL_MAX_FALLOW_020", "sx23");
    ("TEMPERATURE_SOIL_MAX_FALLOW_050", "sx24");
    ("TEMPERATURE_SOIL_MAX_FALLOW_100", "sx25");
    ("TEMPERATURE_SOIL_MAX_FALLOW_150", "sx26");
    ("TEMPERATURE_SOIL_MAX_FALLOW_180", "sx27");
    ("TEMPERATURE_SOIL_MIN_BARE_GROUND_005", "sn31");
    ("TEMPERATURE_SOIL_MIN_BARE_GROUND_010", "sn32");
    ("TEMPERATURE_SOIL_MIN_BARE_GROUND_020", "sn33");
    ("TEMPERATURE_SOIL_MIN_BARE_GROUND_050", "sn34");
    ("TEMPERATURE_SOIL_MIN_BARE_GROUND_100", "sn35");
    ("TEMPERATURE_SOIL_MIN_BARE_GROUND_150", "sn36");
    ("TEMPERATURE_SOIL_MIN_BARE_GROUND_180", "sn37");
    ("TEMPERATURE_SOIL_MAX_BARE_GROUND_005", "sx31");
    ("TEMPERATURE_SOIL_MAX_BARE_GROUND_010", "sx32");
    ("TEMPERATURE_SOIL_MAX_BARE_GROUND_020", "sx33");
    ("TEMPERATURE_SOIL_MAX_BARE_GROUND_050", "sx34");
    ("TEMPERATURE_SOIL_MAX_BARE_GROUND_100", "sx35");
    ("TEMPERATURE_SOIL_MAX_BARE_GROUND_150", "sx36");
    ("TEMPERATURE_SOIL_MAX_BARE_GROUND_180", "sx37");
    ("TEMPERATURE_SOIL_MIN_BROME_GRASS_005", "sn41");
    ("TEMPERATURE_SOIL_MIN_BROME_GRASS_010", "sn42");
    ("TEMPERATURE_SOIL_MIN_BROME_GRASS_020", "sn43");
    ("TEMPERATURE_SOIL_MIN_BROME_GRASS_050", "sn44");
    ("TEMPERATURE_SOIL_MIN_BROME_GRASS_100", "sn45");
    ("TEMPERATURE_SOIL_MIN_BROME_GRASS_150", "sn46");
    ("TEMPERATURE_SOIL_MIN_BROME_GRASS_180", "sn47");
    ("TEMPERATURE_SOIL_MAX_BROME_GRASS_005", "sx41");
    ("TEMPERATURE_SOIL_MAX_BROME_GRASS_010", "sx42");
    ("TEMPERATURE_SOIL_MAX_BROME_GRASS_020", "sx43");
    ("TEMPERATURE_SOIL_MAX_BROME_GRASS_050", "sx44");
    ("TEMPERATURE_SOIL_MAX_BROME_GRASS_100", "sx45");
    ("TEMPERATURE_SOIL_MAX_BROME_GRASS_150", "sx46");
    ("TEMPERATURE_SOIL_MAX_BROME_GRASS_180", "sx47");
    ("TEMPERATURE_SOIL_MIN_SOD_005", "sn51");
    ("TEMPERATURE_SOIL_MIN_SOD_010", "sn52");
    ("TEMPERATURE_SOIL_MIN_SOD_020", "sn53");
    ("TEMPERATURE_SOIL_MIN_SOD_050", "sn54");
    ("TEMPERATURE_SOIL_MIN_SOD_100", "sn55");
    ("TEMPERATURE_SOIL_MIN_SOD_150", "sn56");
    ("TEMPERATURE_SOIL_MIN_SOD_180", "sn57");
    ("TEMPERATURE_SOIL_MAX_SOD_005", "sx51");
    ("TEMPERATURE_SOIL_MAX_SOD_010", "sx52");
    ("TEMPERATURE_SOIL_MAX_SOD_020", "sx53");
    ("TEMPERATURE_SOIL_MAX_SOD_050", "sx54");
    ("TEMPERATURE_SOIL_MAX_SOD_100", "sx55");
    ("TEMPERATURE_SOIL_MAX_SOD_150", "sx56");
    ("TEMPERATURE_SOIL_MAX_SOD_180", "sx57");
    ("TEMPERATURE_SOIL_MIN_STRAW_MULCH_005", "sn61");
    ("TEMPERATURE_SOIL_MIN_STRAW_MULCH_010", "sn62");
    ("TEMPERATURE_SOIL_MIN_STRAW_MULCH_020", "sn63");
    ("TEMPERATURE_SOIL_MIN_STRAW_MULCH_050", "sn64");
    ("TEMPERATURE_SOIL_MIN_STRAW_MULCH_100", "sn65");
    ("TEMPERATURE_SOIL_MIN_STRAW_MULCH_150", "sn66");
    ("TEMPERATURE_SOIL_MIN_STRAW_MULCH_180", "sn67");
    ("TEMPERATURE_SOIL_MAX_STRAW_MULCH_005", "sx61");
    ("TEMPERATURE_SOIL_MAX_STRAW_MULCH_010", "sx62");
    ("TEMPERATURE_SOIL_MAX_STRAW_MULCH_020", "sx63");
    ("TEMPERATURE_SOIL_MAX_STRAW_MULCH_050", "sx64");
    ("TEMPERATURE_SOIL_MAX_STRAW_MULCH_100", "sx65");
    ("TEMPERATURE_SOIL_MAX_STRAW_MULCH_150", "sx66");
    ("TEMPERATURE_SOIL_MAX_STRAW_MULCH_180", "sx67");
    ("TEMPERATURE_SOIL_MIN_GRASS_MUCK_005", "sn71");
    ("TEMPERATURE_SOIL_MIN_GRASS_MUCK_010", "sn72");
    ("TEMPERATURE_SOIL_MIN_GRASS_MUCK_020", "sn73");
    ("TEMPERATURE_SOIL_MIN_GRASS_MUCK_050", "sn74");
    ("TEMPERATURE_SOIL_MIN_GRASS_MUCK_100", "sn75");
    ("TEMPERATURE_SOIL_MIN_GRASS_MUCK_150", "sn76");
    ("TEMPERATURE_SOIL_MIN_GRASS_MUCK_180", "sn77");
    ("TEMPERATURE_SOIL_MAX_GRASS_MUCK_005", "sx71");
    ("TEMPERATURE_SOIL_MAX_GRASS_MUCK_010", "sx72");
    ("TEMPERATURE_SOIL_MAX_GRASS_MUCK_020", "sx73");
    ("TEMPERATURE_SOIL_MAX_GRASS_MUCK_050", "sx74");
    ("TEMPERATURE_SOIL_MAX_GRASS_MUCK_100", "sx75");
    ("TEMPERATURE_SOIL_MAX_GRASS_MUCK_150", "sx76");
    ("TEMPERATURE_SOIL_MAX_GRASS_MUCK_180", "sx77");
    ("TEMPERATURE_SOIL_MIN_BARE_MUCK_005", "sn81");
    ("TEMPERATURE_SOIL_MIN_BARE_MUCK_010", "sn82");
    ("TEMPERATURE_SOIL_MIN_BARE_MUCK_020", "sn83");
    ("TEMPERATURE_SOIL_MIN_BARE_MUCK_050", "sn84");
    ("TEMPERATURE_SOIL_MIN_BARE_MUCK_100", "sn85");
    ("TEMPERATURE_SOIL_MIN_BARE_MUCK_150", "sn86");
    ("TEMPERATURE_SOIL_MIN_BARE_MUCK_180", "sn87");
    ("TEMPERATURE_SOIL_MAX_BARE_MUCK_005", "sx81");
    ("TEMPERATURE_SOIL_MAX_BARE_MUCK_010", "sx82");
    ("TEMPERATURE_SOIL_MAX_BARE_MUCK_020", "sx83");
    ("TEMPERATURE_SOIL_MAX_BARE_MUCK_050", "sx84");
    ("TEMPERATURE_SOIL_MAX_BARE_MUCK_100", "sx85");
    ("TEMPERATURE_SOIL_MAX_BARE_MUCK_150", "sx86");
    ("TEMPERATURE_SOIL_MAX_BARE_MUCK_180", "sx87");
    ("ICE_ON_WATER_THICKNESS", "thic");
    ("TEMPERATURE_AIR_200", "tobs");
    ("SUNSHINE_DURATION", "tsun");
    ("WIND_DIRECTION_GUST_MAX_5SEC", "wdf5");
    ("WIND_DIRECTION_GUST_MAX_1MIN", "wdf1");
    ("WIND_DIRECTION_GUST_MAX_2MIN", "wdf2");
    ("WIND_DIRECTION_GUST_MAX", "wdfg");
    ("WIND_DIRECTION_GUST_MAX_INSTANT", "wdfi");
    ("WIND_DIRECTION_GUST_MAX_1MILE", "wdfm");
    ("WIND_MOVEMENT_24HOUR", "wdmv");
    ("WATER_EQUIVALENT_SNOW_DEPTH", "wesd");
    ("WATER_EQUIVALENT_SNOW_DEPTH_NEW", "wesf");
    ("WIND_GUST_MAX_5SEC", "wsf5");
    ("WIND_GUST_MAX_1MIN", "wsf1");
    ("WIND_GUST_MAX_2MIN", "wsf2");
    ("WIND_GUST_MAX", "wsfg");
    ("WIND_GUST_MAX_INSTANT", "wsfi");
    ("WIND_GUST_MAX_1MILE", "wsfm");
    ("WEATHER_TYPE_FOG", "wt01");
    ("WEATHER_TYPE_HEAVY_FOG", "wt02");
    ("WEATHER_TYPE_THUNDER", "wt03");
    ("WEATHER_TYPE_ICE_SLEET_SNOW_HAIL", "wt04");
    ("WEATHER_TYPE_HAIL", "wt05");
    ("WEATHER_TYPE_GLAZE_RIME", "wt06");
    ("WEATHER_TYPE_DUST_ASH_SAND", "wt07");
    ("WEATHER_TYPE_SMOKE_HAZE", "wt08");
    ("WEATHER_TYPE_BLOWING_DRIFTING_SNOW", "wt09");
    ("WEATHER_TYPE_TORNADO_WATERSPOUT", "wt10");
    ("WEATHER_TYPE_HIGH_DAMAGING_WINDS", "wt11");
    ("WEATHER_TYPE_BLOWING_SPRAY", "wt12");
    ("WEATHER_TYPE_MIST", "wt13");
    ("WEATHER_TYPE_DRIZZLE", "wt14");
    ("WEATHER_TYPE_FREEZING_DRIZZLE", "wt15");
    ("WEATHER_TYPE_RAIN", "wt16");
    ("WEATHER_TYPE_FREEZING_RAIN", "wt17");
    ("WEATHER_TYPE_SNOW_PELLETS_SNOW_GRAINS_ICE_CRYSTALS", "wt18");
    ("WEATHER_TYPE_PRECIPITATION_UNKNOWN_SOURCE", "wt19");
    ("WEATHER_TYPE_GROUND_FOG", "wt21");
    ("WEATHER_TYPE_ICE_FOG_FREEZING_FOG", "wt22");
    ("WEATHER_TYPE_VICINITY_FOG_ANY", "wv01");
    ("WEATHER_TYPE_VICINITY_THUNDER", "wv03");
    ("WEATHER_TYPE_VICINITY_DUST_ASH_SAND", "wv07");
    ("WEATHER_TYPE_VICINITY_SNOW_ICE_CRYSTALS", "wv18");
    ("WEATHER_TYPE_VICINITY_RAIN_SNOW_SHOWER", "wv20")
  ]%string.

End NoaaGhcnParameter.

(** A Python [Enum] turns a name whose value was already given to an
    earlier name into an alias of that earlier member; the members proper
    are the first occurrences of each value. *)
Fixpoint enum_members (body : list (string * string))
  : list (string * string) :=
  match body with
  | [] => []
  | (n, v) :: r =>
      (n, v) :: filter (fun e => negb (String.eqb (snd e) v)) (enum_members r)
  end.

(** All values of a list of strings are pairwise distinct. *)
Fixpoint distinctb (xs : list string) : bool :=
  match xs with
  | [] => true
  | x :: r => negb (PyStr.str_in x r) && distinctb r
  end.

(* ------------------------------------------------------------------ *)
(** ** Parameter registry *)

Module Registry.

(** A parameter ([Parameter] in the spec): canonical name and agency
    code. *)
Record Param : Type := mkParam {
  canonical_name : string;
  agency_code : string
}.

(** An entry of the static table: a parameter under its dataset and
    resolution. *)
Record entry : Type := mkEntry {
  entry_resolution : Resolution;
  entry_dataset : string;
  entry_parameter : Param
}.

Definition registry := list entry.

(** The table of one dataset at one resolution, from an enumeration of
    (canonical name, agency code). *)
Definition of_enum (res : Resolution) (dataset : string)
    (body : list (string * string)) : registry :=
  map (fun e => mkEntry res dataset (mkParam (fst e) (snd e))) body.

(** Modelled from the spec: the lookup of the Parameter Registry lives in
    [wetterdienst.core.scalar.request] and [wetterdienst.util.parameter],
    which are not among the sources.  An entry matches a string under a
    resolution when, after uppercasing both sides, the string equals the
    canonical name or the agency code. *)
Definition matches (res : Resolution) (s : string) (e : entry) : bool :=
  Resolution_eqb res (entry_resolution e)
  && (String.eqb (PyStr.upper s)
        (PyStr.upper (canonical_name (entry_parameter e)))
      || String.eqb (PyStr.upper s)
           (PyStr.upper (agency_code (entry_parameter e)))).

(** Modelled from the spec: "given a resolution and a case-insensitive
    string, return the matching (Parameter, Dataset) pair, or fail with a
    parameter-not-found error if no entry matches under that resolution";
    the error kind for an unresolvable specifier is [LookupError]. *)
Definition resolve (reg : registry) (res : Resolution) (s : string)
  : result (Param * string) :=
  match find (matches res s) reg with
  | Some e => Ok (entry_parameter e, entry_dataset e)
  | None => Raise LookupError
  end.

(** Resolution of a list of specifiers, in input order; the first failure
    surfaces. *)
Fixpoint resolve_all (reg : registry) (res : Resolution) (ss : list string)
  : result (list (Param * string)) :=
  match ss with
  | [] => Ok []
  | s :: r =>
      (p <- resolve reg res s ;;
       ps <- resolve_all reg res r ;;
       Ok (p :: ps))%result
  end.

(** The registry of the NOAA GHCN provider: one dataset, "daily"
    ([NoaaGhcnDatasetBase.DAILY]), at daily resolution. *)
Definition noaa_ghcn : registry :=
  of_enum DAILY "daily" NoaaGhcnParameter.DAILY.

End Registry.

(* ------------------------------------------------------------------ *)
(** ** Network *)

Module Net.

(** What is outside the process: the documents the servers hold, and the
    URLs requested of them so far. *)
Record world : Type := mkWorld {
  remote : string -> option Io.bytes;
  requested : list string
}.

(** Code that may fail and may use the network. *)
Definition M (A : Type) : Type := world -> result A * world.

Definition ret {A} (a : A) : M A := fun w => (Ok a, w).

Definition bind {A B} (c : M A) (k : A -> M B) : M B :=
  fun w =>
    match c w with
    | (Ok a, w') => k a w'
    | (Raise e, w') => (Raise e, w')
    end.

(** Pure code that may fail. *)
Definition lift {A} (r : result A) : M A := fun w => (r, w).

(** Modelled from the spec: [wetterdienst.util.network.download_file] and
    the [requests.get] / [raise_for_status] pair are external; a retrieval
    asks the server for the URL and fails when the document cannot be
    retrieved.  The cache in front of it is left out, so that every call
    counts as a request. *)
Definition http_get (url : string) : M Io.bytes :=
  fun w =>
    (match remote w url with
     | Some body => Ok body
     | None => Raise NetworkError
     end,
     mkWorld (remote w) (requested w ++ [url])).

End Net.

Declare Scope net_scope.
Delimit Scope net_scope with net.
Notation "x <- c ;; k" := (Net.bind c (fun x => k))
  (at level 61, c at next level, right associativity) : net_scope.

(* ------------------------------------------------------------------ *)
(** ** Request descriptor *)

Module ScalarRequestCore.

(** The class attributes a provider's request class sets. *)
Record provider : Type := mkProvider {
  _resolution_base : list Resolution;
  _period_base : list Period;
  _parameter_base : Registry.registry
}.

(** The request descriptor. *)
Record Request : Type := mkRequest {
  parameter : list (Registry.Param * string);
  resolution : Resolution;
  period : Period;
  start_date : option Z;
  end_date : option Z;
  humanize : bool;
  tidy : bool;
  si_units : bool
}.

(** [start > end], for a range given at both ends; dates are instants on
    the time line. *)
Definition inverted (start_date end_date : option Z) : bool :=
  match start_date, end_date with
  | Some s, Some e => (e <? s)%Z
  | _, _ => false
  end.

Definition supported (cls : provider) (r : Resolution) (p : Period) : bool :=
  existsb (Resolution_eqb r) (_resolution_base cls)
  && existsb (Period_eqb p) (_period_base cls).

(** Modelled from the spec: [ScalarRequestCore.__init__]
    ([wetterdienst.core.scalar.request]) is not among the sources.
    Construction "fails with a validation error if date range is inverted
    (start > end) or resolution/period combination is unsupported for the
    selected provider"; each specifier is resolved through the registry in
    input order, duplicates kept.  The range is checked before the
    specifiers are resolved: the spec lets an inverted range fail with
    [ValidationError] whatever else the request holds. *)
Definition __init__ (cls : provider) (parameter : list string)
    (resolution : Resolution) (period : Period)
    (start_date end_date : option Z) (humanize tidy si_units : bool)
  : result Request :=
  if negb (supported cls resolution period) then Raise ValidationError
  else if inverted start_date end_date then Raise ValidationError
  else
    (ps <- Registry.resolve_all (_parameter_base cls) resolution parameter ;;
     Ok (mkRequest ps resolution period start_date end_date
                   humanize tidy si_units))%result.

End ScalarRequestCore.

(* ------------------------------------------------------------------ *)
(** ** [tests/provider/dwd/observation/test_parameters.py] *)

Module TestParameters.

Import Registry.

(** The part of [DwdObservationDatasetTree.DAILY.CLIMATE_SUMMARY] that the
    test names, with the agency codes of its comments. *)
Definition CLIMATE_SUMMARY : list (string * string) :=
  [ ("TEMPERATURE_AIR_MEAN_200", "tmk");
    ("TEMPERATURE_AIR_MAX_200", "txk");
    ("TEMPERATURE_AIR_MIN_200", "tnk");
    ("PRECIPITATION_HEIGHT", "rsk");
    ("PRECIPITATION_FORM", "rskf") ]%string.

Definition dwd_observation : registry :=
  of_enum DAILY "climate_summary" CLIMATE_SUMMARY.

(** Modelled from the spec: [DwdObservationRequest] is not among the
    sources; the test builds it at daily resolution for the historical
    period, which the provider supports. *)
Definition DwdObservationRequest : ScalarRequestCore.provider :=
  ScalarRequestCore.mkProvider
    [MINUTE_1; MINUTE_10; HOURLY; SUBDAILY; DAILY; MONTHLY; ANNUAL]
    [HISTORICAL; RECENT; NOW]
    dwd_observation.

(** [parameters_reference] *)
Definition parameters_reference : list (Param * string) :=
  map (fun e => (mkParam (fst e) (snd e), "climate_summary"%string))
      CLIMATE_SUMMARY.

(** [request.parameter] of a request of the test: built from the
    specifiers, [resolution=DwdObservationResolution.DAILY],
    [period=DwdObservationPeriod.HISTORICAL], the rest at its defaults. *)
Definition request_parameter (parameter : list string)
  : result (list (Param * string)) :=
  (request <- ScalarRequestCore.__init__ DwdObservationRequest parameter
                DAILY HISTORICAL None None true true true ;;
   Ok (ScalarRequestCore.parameter request))%result.

(** [test_dwd_observation_parameters_constants]: the specifiers are the
    members of the enumeration, known by their names. *)
Definition constants : result (list (Param * string)) :=
  request_parameter
    [ "TEMPERATURE_AIR_MEAN_200"; "TEMPERATURE_AIR_MAX_200";
      "TEMPERATURE_AIR_MIN_200"; "PRECIPITATION_HEIGHT";
      "PRECIPITATION_FORM" ]%string.

(** [test_dwd_observation_parameters_strings_lowercase] *)
Definition strings_lowercase : result (list (Param * string)) :=
  request_parameter [ "tmk"; "txk"; "tnk"; "rsk"; "rskf" ]%string.

(** [test_dwd_observation_parameters_strings_uppercase] *)
Definition strings_uppercase : result (list (Param * string)) :=
  request_parameter [ "TMK"; "TXK"; "TNK"; "RSK"; "RSKF" ]%string.

End TestParameters.

(* ------------------------------------------------------------------ *)
(** ** [wetterdienst/provider/noaa/ghcn/api.py] *)

Module NoaaGhcnValues.

Import Pandas.

Definition _base_url_prefix : string :=
  "https://www1.ncdc.noaa.gov/pub/data/ghcn/daily/by_station/".
Definition _base_url_suffix : string := ".csv.gz".

(** [self._base_url.format(station_id=station_id)] *)
Definition _base_url (station_id : string) : string :=
  (_base_url_prefix ++ station_id ++ _base_url_suffix)%string.

Definition columns : list label :=
  [ LStr Columns.STATION_ID; LStr Columns.DATE; LStr Columns.PARAMETER;
    LStr Columns.VALUE; LStr Columns.QUALITY ].

(** The body of [_collect_station_parameter] after [pd.read_csv]. *)
Definition shape (df : DataFrame) : result DataFrame :=
  (let df := iloc_cols_drop_last 3 df in
   df <- set_columns columns df ;;
   ser <- loc_col (LStr Columns.PARAMETER) df ;;
   ser <- str_lower ser ;;
   set_loc_col (LStr Columns.PARAMETER) ser df)%result.

Section Collect.

(** [pd.read_csv(file, sep=",", compression="gzip", header=None)]: the
    parser is pandas' own; the frame it returns has the columns numbered
    from 0. *)
Variable read_csv : Io.bytes -> result DataFrame.

(** [_collect_station_parameter(self, station_id, parameter, dataset)];
    [parameter] and [dataset] are ignored, as the data comes as a
    whole. *)
Definition _collect_station_parameter (station_id : string)
    (parameter dataset : string) : Net.M DataFrame :=
  (let url := _base_url station_id in
   file <- Net.http_get url ;;
   df <- Net.lift (read_csv file) ;;
   Net.lift (shape df))%net.

End Collect.

End NoaaGhcnValues.

Module NoaaGhcnRequest.

Import Pandas.

Definition _base_url : string :=
  "https://www1.ncdc.noaa.gov/pub/data/ghcn/daily/ghcnd-stations.txt".

Definition _listing_colspecs : list (nat * nat) :=
  [ (0, 11); (12, 20); (21, 30); (31, 37); (41, 71) ].

(** [_resolution_base = NoaaGhcnResolution], whose one member is [DAILY];
    [_period_base = Period.HISTORICAL]; [_parameter_base =
    NoaaGhcnParameter]. *)
Definition cls : ScalarRequestCore.provider :=
  ScalarRequestCore.mkProvider [DAILY] [HISTORICAL] Registry.noaa_ghcn.

(** [NoaaGhcnRequest.__init__]: the constructor has no resolution and no
    period argument and hands [Resolution.DAILY] and [Period.HISTORICAL]
    to the base class. *)
Definition __init__ (parameter : list string)
    (start_date end_date : option Z) (humanize tidy si_units : bool)
  : result ScalarRequestCore.Request :=
  ScalarRequestCore.__init__ cls parameter DAILY HISTORICAL
    start_date end_date humanize tidy si_units.

(** The lines of a text document, without their terminators.  What
    follows the last terminator counts as a line even when it is empty;
    the reader drops it with the other blank lines. *)
Fixpoint splitlines_aux (cur : string) (s : string) : list string :=
  match s with
  | EmptyString => [cur]
  | String c r =>
      if Ascii.eqb c (ascii_of_nat 10)
      then cur :: splitlines_aux EmptyString r
      else splitlines_aux (cur ++ String c EmptyString) r
  end.

Definition lines_of (body : Io.bytes) : list string :=
  splitlines_aux EmptyString (string_of_list_byte body).

Definition listing_columns : list label :=
  [ LStr Columns.STATION_ID; LStr Columns.LATITUDE; LStr Columns.LONGITUDE;
    LStr Columns.HEIGHT; LStr Columns.NAME ].

(** The body of [_all] after the download: [pd.read_fwf] with the listing
    column specifications, then the five column names. *)
Definition parse_listing (lines : list string) : result DataFrame :=
  (df <- read_fwf _listing_colspecs lines ;;
   set_columns listing_columns df)%result.

(** [_all(self)] *)
Definition _all : Net.M DataFrame :=
  (body <- Net.http_get _base_url ;;
   Net.lift (parse_listing (lines_of body)))%net.

Section Main.

Variable read_csv : Io.bytes -> result DataFrame.

(** Modelled from the spec: [filter_by_station_id] and [values.query], which
    the [__main__] block calls, are not among the sources.  The control
    flow is the spec's: the request is built from the user's input, the
    station listing is fetched, then the values of the station are
    collected. *)
Definition main (parameter : list string)
    (start_date end_date : option Z) (humanize tidy si_units : bool)
    (station_id : string) : Net.M DataFrame :=
  (request <- Net.lift (__init__ parameter start_date end_date
                                 humanize tidy si_units) ;;
   stations <- _all ;;
   NoaaGhcnValues._collect_station_parameter read_csv station_id
     EmptyString EmptyString)%net.

End Main.

End NoaaGhcnRequest.

(* ------------------------------------------------------------------ *)
(** ** Tidy and wide frames *)

Module Tidy.

Import Pandas.
















End Tidy.

(* ------------------------------------------------------------------ *)
(** ** Sample data *)

Module Samples.

Import Io Pandas Tidy.

(** [b"abc"] *)
Definition abc : bytes := [x61; x62; x63].

(** The row as the spec prints it. *)
Definition sample_row : string :=
  "GME00111464  50.7983    6.0244   202.0  AACHEN".

(** The same station in the layout of [ghcnd-stations.txt]: identifier in
    columns 0-10, latitude right-aligned in 12-19, longitude in 21-29,
    elevation in 31-36, name from 41. *)
Definition ghcnd_row : string :=
  "GME00111464  50.7983    6.0244  202.0    AACHEN".

(** The values the spec expects for the row. *)
Definition aachen : list cell :=
  [ CStr "GME00111464"; CStr "50.7983"; CStr "6.0244"; CStr "202.0";
    CStr "AACHEN" ].

(** Two rows of a by-station file, the element codes in mixed case. *)
Definition mixed_case_file : DataFrame :=
  mkDataFrame (map LInt (seq 0 8))
    [ [ CStr "GME00111464"; CNum 19310101; CStr "TMAX"; CNum 12;
        CNaN; CNaN; CStr "E"; CNaN ];
      [ CStr "GME00111464"; CNum 19310101; CStr "Tmin"; CNum (-23);
        CNaN; CNaN; CStr "E"; CNaN ] ].

(** A world whose server holds one by-station document. *)
Definition one_station_world : Net.world :=
  Net.mkWorld
    (fun url =>
       if String.eqb url (NoaaGhcnValues._base_url "GME00111464")
       then Some [] else None)
    [].



(** A by-station file with one column too many. *)
Definition nine_column_file : DataFrame :=
  mkDataFrame (map LInt (seq 0 9))
    [ [ CStr "GME00111464"; CNum 19310101; CStr "TMAX"; CNum 12;
        CNaN; CNaN; CStr "E"; CNaN; CNaN ] ].

(** A file of eight columns whose third column holds numbers. *)
Definition numeric_codes_file : DataFrame :=
  mkDataFrame (map LInt (seq 0 8))
    [ [ CStr "GME00111464"; CNum 19310101; CNum 7; CNum 12;
        CNaN; CNaN; CStr "E"; CNaN ] ].

(** A station of the listing with its state code in columns 38-39. *)
Definition state_row : string :=
  "US1COAD0001  39.7500 -104.9900 1609.0 CO DENVER".

(** The same line with the state code blanked out. *)
Definition stateless_row : string :=
  "US1COAD0001  39.7500 -104.9900 1609.0    DENVER".

(** A listing line that ends after the latitude. *)
Definition short_row : string := "GME00111464  50.7983".

End Samples.

(* ------------------------------------------------------------------ *)
(** ** Vocabulary of the properties *)

Module Stated.

Import Io Pandas Registry.

(** The property as the spec words it, for every file object and every
    chunk size. *)
Definition every_chunk_within_chunk_size : Prop :=
  forall (file_object : Type)
         (read : file_object -> Z -> bytes * file_object)
         (chunk_size : Z) (f : file_object),
    finite_source read chunk_size f ->
    exists fuel chunks g,
      drain read fuel chunk_size (read_in_chunks f chunk_size)
      = Some (chunks, g)
      /\ Forall (fun c => c <> []
                          /\ (Z.of_nat (List.length c) <= chunk_size)%Z)
                chunks.

(** The cells of one listing line. *)
Definition listing_cells (line : string) : list cell :=
  [ str_cell (PyStr.strip fwf_delimiter (PyStr.slice 0 11 line));
    str_cell (PyStr.strip fwf_delimiter (PyStr.slice 12 20 line));
    str_cell (PyStr.strip fwf_delimiter (PyStr.slice 21 30 line));
    str_cell (PyStr.strip fwf_delimiter (PyStr.slice 31 37 line));
    str_cell (PyStr.strip fwf_delimiter (PyStr.slice 41 71 line)) ].

(** A row of the collected frame, from the row of the file: the first five
    cells, the third one lowercased. *)
Definition collected_row (r : list cell) : list cell :=
  set_nth 2 (lower_cell (nth 2 r CNaN)) (firstn 5 r).

(** The third column of the file. *)
Definition parameter_codes (raw : DataFrame) : list cell :=
  map (fun r => nth 2 r CNaN) (rows raw).

(** A cell that holds a lowercase string, or no string at all. *)
Definition lowercase_cell (c : cell) : Prop :=
  match c with
  | CStr s => PyStr.lower s = s
  | CNaN => True
  | CNum _ => False
  end.

(** No entry of the table matches: the same, as a test that runs. *)
Definition unknownb (reg : registry) (res : Resolution) (s : string) : bool :=
  forallb (fun e => negb (matches res s e)) reg.

(** Bytes left between the position and the end of the buffer. *)
Definition remaining (f : BytesIO) : nat := List.length (buffer f) - pos f.

(** The number of chunks: the bytes left, divided by the chunk size and
    rounded up. *)
Definition chunk_count (size : Z) (f : BytesIO) : nat :=
  (remaining f + Z.to_nat size - 1) / Z.to_nat size.

(** The chunk numbered [j]: the bytes from [pos + j * size] on, at most
    [size] of them. *)
Definition slice_at (size : Z) (f : BytesIO) (j : nat) : bytes :=
  firstn (Z.to_nat size)
         (skipn (pos f + j * Z.to_nat size) (buffer f)).

(** The file object once everything was read. *)
Definition at_end (f : BytesIO) : BytesIO :=
  mkBytesIO (buffer f) (pos f + remaining f).

(** A file object that never runs dry: every read returns one zero
    byte. *)
Definition zeros (f : unit) (size : Z) : bytes * unit := ([x00], tt).

(** [Enum[name]]: the value of the member of that name, if there is
    one. *)
Definition enum_by_name (body : list (string * string)) (n : string)
  : option string :=
  option_map snd (find (fun e => String.eqb (fst e) n) body).

(** [Enum(value)]: the name of the member of that value, if there is
    one. *)
Definition enum_by_value (body : list (string * string)) (v : string)
  : option string :=
  option_map fst (find (fun e => String.eqb (snd e) v) body).

(** The ground covers of the soil temperature codes, by code 0 to 8, as
    the names of [NoaaGhcnParameter.DAILY] spell them. *)
Definition ground_cover : list string :=
  [ "UNKNOWN"; "GRASS"; "FALLOW"; "BARE_GROUND"; "BROME_GRASS"; "SOD";
    "STRAW_MULCH"; "GRASS_MUCK"; "BARE_MUCK" ]%string.

(** The soil depths in centimetres, by code 1 to 7, in three digits. *)
Definition soil_depth : list string :=
  [ "005"; "010"; "020"; "050"; "100"; "150"; "180" ]%string.

(** One decimal digit. *)
Definition digit (n : nat) : string :=
  String (ascii_of_nat (48 + n)) EmptyString.

(** The name and the code of a soil temperature parameter: minimum or
    maximum, ground cover code, depth code. *)
Definition soil_name (maximum : bool) (cover depth : nat) : string :=
  ("TEMPERATURE_SOIL_" ++ (if maximum then "MAX" else "MIN") ++ "_"
   ++ nth cover ground_cover EmptyString ++ "_"
   ++ nth (depth - 1) soil_depth EmptyString)%string.

Definition soil_code (maximum : bool) (cover depth : nat) : string :=
  ("s" ++ (if maximum then "x" else "n") ++ digit cover ++ digit depth)%string.

(** A decimal digit character. *)
Definition is_digit (c : ascii) : bool :=
  (48 <=? nat_of_ascii c) && (nat_of_ascii c <=? 57).

(** A code of the soil temperature family, SN*# or SX*# in the docstring:
    "sn" or "sx" followed by two digits. *)
Definition is_soil_code (v : string) : bool :=
  match v with
  | String s (String e (String c (String d EmptyString))) =>
      Ascii.eqb s (ascii_of_nat 115)
      && (Ascii.eqb e (ascii_of_nat 110) || Ascii.eqb e (ascii_of_nat 120))
      && is_digit c && is_digit d
  | _ => false
  end.

(** The soil temperature parameters that the coding scheme gives. *)
Definition soil_scheme : list (string * string) :=
  flat_map (fun cover =>
    flat_map (fun maximum =>
      map (fun depth => (soil_name maximum cover depth,
                         soil_code maximum cover depth))
          (seq 1 7))
      [false; true])
    (seq 0 9).

(** A position of a listing line that lies in one of the column
    specifications. *)
Definition covered (i : nat) : bool :=
  existsb (fun c => (fst c <=? i) && (i <? snd c))
          NoaaGhcnRequest._listing_colspecs.

(** The widths of the listing columns. *)
Definition listing_widths : list nat :=
  map (fun c => snd c - fst c) NoaaGhcnRequest._listing_colspecs.

Definition option_ascii_eqb (x y : option ascii) : bool :=
  match x, y with
  | Some a, Some b => Ascii.eqb a b
  | None, None => true
  | _, _ => false
  end.

(** [next(gen)] called [j] times in a row, as [itertools.islice(gen, j)]
    does: the chunks that came out, up to a [StopIteration], and the
    generator as it is left. *)
Fixpoint take {file_object : Type}
    (read : file_object -> Z -> bytes * file_object)
    (j : nat) (chunk_size : Z) (g : generator file_object)
  : list bytes * generator file_object :=
  match j with
  | O => ([], g)
  | S j' =>
      match next read chunk_size g with
      | (None, g') => ([], g')
      | (Some data, g') =>
          let (ds, g'') := take read j' chunk_size g' in
          (data :: ds, g'')
      end
  end.

(** A listing line that the reader keeps: one of its five fields holds
    something. *)
Definition has_fields (line : string) : bool :=
  negb (Pandas.empty_line
          (Pandas.fwf_fields NoaaGhcnRequest._listing_colspecs line)).

End Stated.

(* ================================================================== *)
(** * Properties *)

(* ------------------------------------------------------------------ *)
(** ** Case conversion *)

Module PyStrFacts.

Import PyStr.

Ltac by_cases_on_char c :=
  destruct c as [[] [] [] [] [] [] [] []]; reflexivity.

Lemma lower_char_idem (c : ascii) : lower_char (lower_char c) = lower_char c.
Proof. by_cases_on_char c. Qed.

Lemma upper_char_idem (c : ascii) : upper_char (upper_char c) = upper_char c.
Proof. by_cases_on_char c. Qed.

Lemma upper_lower_char (c : ascii) : upper_char (lower_char c) = upper_char c.
Proof. by_cases_on_char c. Qed.

Lemma lower_idem (s : string) : lower (lower s) = lower s.
Proof.
  induction s as [|c r IH]; simpl; [reflexivity|].
  now rewrite lower_char_idem, IH.
Qed.

Lemma upper_idem (s : string) : upper (upper s) = upper s.
Proof.
  induction s as [|c r IH]; simpl; [reflexivity|].
  now rewrite upper_char_idem, IH.
Qed.

Lemma upper_lower (s : string) : upper (lower s) = upper s.
Proof.
  induction s as [|c r IH]; simpl; [reflexivity|].
  now rewrite upper_lower_char, IH.
Qed.

End PyStrFacts.

(* ------------------------------------------------------------------ *)
(** ** [read_in_chunks] *)

Module IoFacts.

Import Io.
Import Samples Stated.

Section Generator.

Variable file_object : Type.
Variable read : file_object -> Z -> bytes * file_object.
Variable chunk_size : Z.

Lemma falsy_nil (d : bytes) : falsy d = true <-> d = [].
Proof. destruct d; simpl; split; congruence. Qed.

Lemma nth_read_S (k : nat) (f : file_object) :
  nth_read read (S k) chunk_size f
  = nth_read read k chunk_size (snd (read f chunk_size)).
Proof. reflexivity. Qed.

(** Among the reads of a finite source there is a first empty one. *)
Lemma first_empty_read (f : file_object) :
  finite_source read chunk_size f ->
  exists k, nth_read read k chunk_size f = []
            /\ forall j, j < k -> nth_read read j chunk_size f <> [].
Proof.
  intros [k Hk]. revert f Hk.
  induction k as [|k IH]; intros f Hk.
  - exists 0. split; [exact Hk|]. intros j Hj. lia.
  - destruct (falsy (nth_read read 0 chunk_size f)) eqn:E.
    + exists 0. split; [now apply falsy_nil|]. intros j Hj. lia.
    + rewrite nth_read_S in Hk.
      destruct (IH _ Hk) as (m & Hm & Hbefore).
      exists (S m). split; [now rewrite nth_read_S|].
      intros [|j] Hj.
      * intro H0. apply falsy_nil in H0. congruence.
      * rewrite nth_read_S. apply Hbefore. lia.
Qed.

(** Up to the first empty read the generator yields what the reads
    return, then it is finished; more fuel changes nothing. *)
Lemma drain_until_empty (k : nat) :
  forall (f : file_object) (fuel : nat),
    nth_read read k chunk_size f = [] ->
    (forall j, j < k -> nth_read read j chunk_size f <> []) ->
    k < fuel ->
    drain read fuel chunk_size (Running f)
    = Some (reads read k chunk_size f,
            Finished (after_reads read (S k) chunk_size f)).
Proof.
  induction k as [|k IH]; intros f [|fuel] Hk Hbefore Hfuel; try lia.
  - unfold nth_read in Hk. cbn [after_reads] in Hk.
    cbn [drain next reads after_reads].
    destruct (read f chunk_size) as [d f']. cbn [fst snd] in *.
    subst d. reflexivity.
  - assert (H0 : nth_read read 0 chunk_size f <> []) by (apply Hbefore; lia).
    unfold nth_read in H0. cbn [after_reads] in H0.
    rewrite nth_read_S in Hk.
    assert (Hb : forall j, j < k ->
              nth_read read j chunk_size (snd (read f chunk_size)) <> []).
    { intros j Hj. rewrite <- nth_read_S. apply Hbefore. lia. }
    specialize (IH (snd (read f chunk_size)) fuel Hk Hb ltac:(lia)).
    cbn [drain next]. cbn [reads after_reads] in *.
    destruct (read f chunk_size) as [d f']. cbn [fst snd] in *.
    destruct d as [|b d]; [congruence|]. cbn [falsy].
    rewrite IH. reflexivity.
Qed.

Lemma reads_nonempty (k : nat) :
  forall f,
    (forall j, j < k -> nth_read read j chunk_size f <> []) ->
    Forall (fun c => c <> []) (reads read k chunk_size f).
Proof.
  induction k as [|k IH]; intros f Hbefore; simpl; constructor.
  - apply (Hbefore 0). lia.
  - apply IH. intros j Hj. apply (Hbefore (S j)). lia.
Qed.

Lemma reads_bounded (k : nat) :
  read_bounded read chunk_size ->
  forall f,
    Forall (fun c => (Z.of_nat (List.length c) <= chunk_size)%Z)
           (reads read k chunk_size f).
Proof.
  intros Hb. induction k as [|k IH]; intros f; simpl; constructor.
  - apply Hb.
  - apply IH.
Qed.

Lemma content_read_last_empty (k : nat) :
  forall f,
    nth_read read k chunk_size f = [] ->
    content_read read (S k) chunk_size f
    = List.concat (reads read k chunk_size f).
Proof.
  unfold content_read.
  induction k as [|k IH]; intros f Hk.
  - unfold nth_read in Hk. simpl in *. rewrite Hk. reflexivity.
  - rewrite nth_read_S in Hk. apply IH in Hk.
    change (reads read (S (S k)) chunk_size f)
      with (fst (read f chunk_size)
              :: reads read (S k) chunk_size (snd (read f chunk_size))).
    change (reads read (S k) chunk_size f)
      with (fst (read f chunk_size)
              :: reads read k chunk_size (snd (read f chunk_size))).
    rewrite !concat_cons, Hk. reflexivity.
Qed.

End Generator.

(** With a negative size [BytesIO.read] returns the whole buffer: whatever
    the fuel, the one chunk that comes out is longer than the size. *)
Lemma drain_abc_negative_size (fuel : nat) chunks g :
  drain BytesIO_read fuel (-1) (read_in_chunks (mkBytesIO abc 0) (-1))
  = Some (chunks, g) ->
  chunks = [abc].
Proof.
  destruct fuel as [|[|[|fuel]]]; simpl; intros H; try discriminate;
    now inversion H.
Qed.

(** [BytesIO.read] returns at most [size] bytes for a size that is not
    negative. *)
Lemma BytesIO_read_bounded (size : Z) :
  (0 <= size)%Z -> read_bounded BytesIO_read size.
Proof.
  intros Hsize f. unfold BytesIO_read.
  destruct (size <? 0)%Z eqn:E; [apply Z.ltb_lt in E; lia|].
  cbn [fst]. rewrite length_firstn. lia.
Qed.

(** A [BytesIO] is a finite source for every size: its reads reach the end
    of the buffer. *)
Lemma BytesIO_finite_source (size : Z) (f : BytesIO) :
  finite_source BytesIO_read size f.
Proof.
  destruct (Z.ltb_spec size 0) as [Hneg|Hpos].
  - exists 1. unfold nth_read, BytesIO_read. cbn [after_reads].
    apply Z.ltb_lt in Hneg. rewrite Hneg. cbn [fst snd buffer pos].
    apply skipn_all2. rewrite length_skipn. lia.
  - destruct (Z.eq_dec size 0) as [->|Hnz].
    + exists 0. reflexivity.
    + remember (List.length (buffer f) - pos f) as m eqn:Hm.
      revert f Hm.
      induction m as [m IH] using lt_wf_ind. intros f Hm.
      destruct m as [|m].
      * exists 0. unfold nth_read, BytesIO_read. cbn [after_reads].
        apply Z.ltb_ge in Hpos. rewrite Hpos. cbn [fst].
        rewrite skipn_all2 by lia. now rewrite firstn_nil.
      * set (f' := snd (BytesIO_read f size)).
        assert (Hlt : List.length (buffer f') - pos f' < S m).
        { subst f'. unfold BytesIO_read.
          apply Z.ltb_ge in Hpos. rewrite Hpos. cbn [snd buffer pos].
          rewrite length_firstn, length_skipn.
          assert (0 < Z.to_nat size) by lia. lia. }
        destruct (IH _ Hlt f' eq_refl) as [k Hk].
        exists (S k). exact Hk.
Qed.

Lemma firstn_skipn_length {A} (n : nat) (l : list A) :
  firstn n l ++ skipn (List.length (firstn n l)) l = l.
Proof.
  rewrite length_firstn.
  destruct (Nat.le_ge_cases n (List.length l)) as [H|H].
  - rewrite Nat.min_l by exact H. apply firstn_skipn.
  - rewrite Nat.min_r by exact H.
    rewrite firstn_all2 by exact H. rewrite skipn_all. apply app_nil_r.
Qed.

(** Read with a positive size, the chunks of a [BytesIO] put together are
    the buffer from the position on. *)
Lemma BytesIO_chunks_content (size : Z) (k : nat) :
  (0 < size)%Z ->
  forall f,
    nth_read BytesIO_read k size f = [] ->
    List.concat (reads BytesIO_read k size f) = skipn (pos f) (buffer f).
Proof.
  intros Hsize.
  assert (Hnn : (size <? 0)%Z = false) by (apply Z.ltb_ge; lia).
  induction k as [|k IH]; intros f Hk.
  - unfold nth_read, BytesIO_read in Hk. cbn [after_reads] in Hk.
    rewrite Hnn in Hk. cbn [fst] in Hk. cbn [reads List.concat].
    destruct (skipn (pos f) (buffer f)) as [|b rest]; [reflexivity|].
    destruct (Z.to_nat size) as [|n] eqn:En; [lia|]. discriminate.
  - rewrite nth_read_S in Hk. specialize (IH _ Hk).
    cbn [reads]. rewrite concat_cons, IH.
    unfold BytesIO_read. rewrite Hnn. cbn [fst snd buffer pos].
    rewrite Nat.add_comm, <- skipn_skipn.
    apply firstn_skipn_length.
Qed.

End IoFacts.

(** C9 (amended): for every file object whose successive reads eventually
    return an empty result, [read_in_chunks] yields, with enough fuel, the
    finite sequence of the reads before the first empty one and is then
    finished; every chunk is non-empty; the concatenation of the chunks is
    everything read from the source; and the chunks are of length at most
    [chunk_size] when the file object's [read] returns at most that many
    bytes. *)
Theorem read_in_chunks_finite_source :
  forall (file_object : Type)
         (read : file_object -> Z -> Io.bytes * file_object)
         (chunk_size : Z) (f : file_object),
    Io.finite_source read chunk_size f ->
    exists k,
      Io.nth_read read k chunk_size f = []
      /\ (forall j, j < k -> Io.nth_read read j chunk_size f <> [])
      /\ (forall fuel, k < fuel ->
            Io.drain read fuel chunk_size (Io.read_in_chunks f chunk_size)
            = Some (Io.reads read k chunk_size f,
                    Io.Finished (Io.after_reads read (S k) chunk_size f)))
      /\ Forall (fun c => c <> []) (Io.reads read k chunk_size f)
      /\ List.concat (Io.reads read k chunk_size f)
         = Io.content_read read (S k) chunk_size f
      /\ (Io.read_bounded read chunk_size ->
          Forall (fun c => (Z.of_nat (List.length c) <= chunk_size)%Z)
                 (Io.reads read k chunk_size f)).
Proof.
  intros file_object read chunk_size f Hfin.
  destruct (IoFacts.first_empty_read Hfin) as (k & Hk & Hbefore).
  exists k. repeat split.
  - exact Hk.
  - exact Hbefore.
  - intros fuel Hfuel. now apply IoFacts.drain_until_empty.
  - now apply IoFacts.reads_nonempty.
  - symmetry. now apply IoFacts.content_read_last_empty.
  - intros Hb. now apply IoFacts.reads_bounded.
Qed.

Lemma read_in_chunks_finite_source_witness :
  Io.finite_source Io.BytesIO_read 2 (Io.mkBytesIO Samples.abc 0)
  /\ exists k,
      Io.nth_read Io.BytesIO_read k 2 (Io.mkBytesIO Samples.abc 0) = []
      /\ (forall j, j < k ->
            Io.nth_read Io.BytesIO_read j 2 (Io.mkBytesIO Samples.abc 0)
            <> [])
      /\ (forall fuel, k < fuel ->
            Io.drain Io.BytesIO_read fuel 2
              (Io.read_in_chunks (Io.mkBytesIO Samples.abc 0) 2)
            = Some (Io.reads Io.BytesIO_read k 2 (Io.mkBytesIO Samples.abc 0),
                    Io.Finished
                      (Io.after_reads Io.BytesIO_read (S k) 2
                         (Io.mkBytesIO Samples.abc 0))))
      /\ Forall (fun c => c <> [])
                (Io.reads Io.BytesIO_read k 2 (Io.mkBytesIO Samples.abc 0))
      /\ List.concat
           (Io.reads Io.BytesIO_read k 2 (Io.mkBytesIO Samples.abc 0))
         = Io.content_read Io.BytesIO_read (S k) 2
             (Io.mkBytesIO Samples.abc 0)
      /\ (Io.read_bounded Io.BytesIO_read 2 ->
          Forall (fun c => (Z.of_nat (List.length c) <= 2)%Z)
                 (Io.reads Io.BytesIO_read k 2
                    (Io.mkBytesIO Samples.abc 0))).
Proof.
  assert (H : Io.finite_source Io.BytesIO_read 2
                (Io.mkBytesIO Samples.abc 0)).
  { exists 2. reflexivity. }
  split; [exact H|].
  exact (read_in_chunks_finite_source H).
Defined.

(** C9 as stated does not hold: [io.BytesIO(b"abc")] read with
    [chunk_size = -1] is a finite source, and the one chunk that
    [read_in_chunks] yields has three bytes. *)
Lemma read_in_chunks_negative_size_counterexample :
  ~ Stated.every_chunk_within_chunk_size.
Proof.
  intros Hstated.
  destruct (Hstated _ Io.BytesIO_read (-1)%Z (Io.mkBytesIO Samples.abc 0)
              (IoFacts.BytesIO_finite_source _ _))
    as (fuel & chunks & g & Hdrain & Hall).
  apply IoFacts.drain_abc_negative_size in Hdrain. subst chunks.
  inversion Hall as [|c cs [_ Hlen] _]. simpl in Hlen. lia.
Qed.

(* ------------------------------------------------------------------ *)
(** ** Station listing *)

Module ListingFacts.

Import Pandas.
Import Samples Stated.

Lemma filter_map_comm {A B} (f : A -> B) (p : B -> bool) (l : list A) :
  filter p (map f l) = map f (filter (fun x => p (f x)) l).
Proof.
  induction l as [|x l IH]; simpl; [reflexivity|].
  rewrite IH. now destruct (p (f x)).
Qed.

(** The parse of a listing: the lines that hold something, each cut into
    its five cells; with no such line, [EmptyDataError]. *)
Lemma parse_listing_rows (lines : list string) :
  NoaaGhcnRequest.parse_listing lines
  = match filter has_fields lines with
    | [] => Raise EmptyDataError
    | _ :: _ =>
        Ok (mkDataFrame NoaaGhcnRequest.listing_columns
              (map listing_cells (filter has_fields lines)))
    end.
Proof.
  unfold NoaaGhcnRequest.parse_listing, read_fwf.
  rewrite filter_map_comm.
  change (fun x => negb (empty_line
                           (fwf_fields NoaaGhcnRequest._listing_colspecs x)))
    with has_fields.
  destruct (filter has_fields lines) as [|line kept]; [reflexivity|].
  cbn [map bind_result]. rewrite map_map. reflexivity.
Qed.

(** The listing as downloaded: [_all] asks for the one URL and parses the
    body line by line. *)
Example _all_ghcnd_row :
  let body := list_byte_of_string (ghcnd_row ++ String (ascii_of_nat 10) EmptyString) in
  let w := Net.mkWorld
             (fun url => if String.eqb url NoaaGhcnRequest._base_url
                         then Some body else None) [] in
  NoaaGhcnRequest._all w
  = (Ok (mkDataFrame NoaaGhcnRequest.listing_columns [aachen]),
     Net.mkWorld (Net.remote w) [NoaaGhcnRequest._base_url]).
Proof. vm_compute. reflexivity. Qed.

End ListingFacts.

(** C1 (amended): a station-listing row is cut at the offsets (0,11),
    (12,20), (21,30), (31,37), (41,71), each piece stripped of blanks, and
    the pieces are the cells of the columns station_id, latitude,
    longitude, height, name; the lines whose five pieces are all blank
    are dropped, and a listing with no other line raises
    [EmptyDataError].  The row as the spec prints it gives station_id
    "GME00111464", latitude "50.7983", longitude "6.0244", height "202."
    and name "ACHEN"; the row in the layout of the GHCN listing, with the
    elevation in columns 31-36 and the name from column 41, gives height
    "202.0" and name "AACHEN". *)
Theorem listing_colspecs_fields :
  (forall lines,
      NoaaGhcnRequest.parse_listing lines
      = match filter Stated.has_fields lines with
        | [] => Raise EmptyDataError
        | _ :: _ =>
            Ok (Pandas.mkDataFrame
                  [ Pandas.LStr "station_id"; Pandas.LStr "latitude";
                    Pandas.LStr "longitude"; Pandas.LStr "height";
                    Pandas.LStr "name" ]
                  (map Stated.listing_cells
                       (filter Stated.has_fields lines)))
        end)
  /\ Stated.listing_cells Samples.sample_row
     = [ Pandas.CStr "GME00111464"; Pandas.CStr "50.7983";
         Pandas.CStr "6.0244"; Pandas.CStr "202."; Pandas.CStr "ACHEN" ]
  /\ Stated.listing_cells Samples.ghcnd_row
     = [ Pandas.CStr "GME00111464"; Pandas.CStr "50.7983";
         Pandas.CStr "6.0244"; Pandas.CStr "202.0"; Pandas.CStr "AACHEN" ]
  /\ NoaaGhcnRequest.parse_listing [Samples.sample_row]
     = Ok (Pandas.mkDataFrame
             [ Pandas.LStr "station_id"; Pandas.LStr "latitude";
               Pandas.LStr "longitude"; Pandas.LStr "height";
               Pandas.LStr "name" ]
             [ [ Pandas.CStr "GME00111464"; Pandas.CStr "50.7983";
                 Pandas.CStr "6.0244"; Pandas.CStr "202.";
                 Pandas.CStr "ACHEN" ] ])
  /\ NoaaGhcnRequest.parse_listing [Samples.ghcnd_row]
     = Ok (Pandas.mkDataFrame
             [ Pandas.LStr "station_id"; Pandas.LStr "latitude";
               Pandas.LStr "longitude"; Pandas.LStr "height";
               Pandas.LStr "name" ]
             [ [ Pandas.CStr "GME00111464"; Pandas.CStr "50.7983";
                 Pandas.CStr "6.0244"; Pandas.CStr "202.0";
                 Pandas.CStr "AACHEN" ] ]).
Proof.
  split; [exact ListingFacts.parse_listing_rows|].
  repeat split; vm_compute; reflexivity.
Qed.

(** C1 as stated does not hold: in the row as the spec prints it the
    elevation ends in column 37 and the name starts in column 40, so the
    slices (31,37) and (41,71) cut "202." and "ACHEN". *)
Lemma sample_row_counterexample :
  NoaaGhcnRequest.parse_listing [Samples.sample_row]
  <> Ok (Pandas.mkDataFrame NoaaGhcnRequest.listing_columns
           [Samples.aachen]).
Proof. vm_compute. discriminate. Qed.

(* ------------------------------------------------------------------ *)
(** ** Value collector *)

Module ValuesFacts.

Import Pandas.
Import Samples Stated.

Lemma drop_last_length {A} (k : nat) (xs : list A) :
  List.length (drop_last k xs) = List.length xs - k.
Proof. unfold drop_last. rewrite length_firstn. lia. Qed.

Lemma assign_rows_map (i : nat) (f : list cell -> cell) (rs : list (list cell)) :
  assign_rows i rs (map f rs) = map (fun r => set_nth i (f r) r) rs.
Proof.
  induction rs as [|r rs IH]; simpl; [reflexivity|]. now rewrite IH.
Qed.

Lemma nth_set_nth {A} (i : nat) (x d : A) (xs : list A) :
  nth i (set_nth i x xs) d = x \/ nth i (set_nth i x xs) d = d.
Proof.
  revert i. induction xs as [|y xs IH]; intros [|i]; simpl; auto.
Qed.

Lemma nth_set_nth_lt {A} (i : nat) (x d : A) (xs : list A) :
  i < List.length xs -> nth i (set_nth i x xs) d = x.
Proof.
  revert i. induction xs as [|y xs IH]; intros [|i]; simpl; intros H;
    try lia; auto. apply IH. lia.
Qed.

(** What [shape] computes, step by step. *)
Lemma shape_unfold (raw : DataFrame) :
  NoaaGhcnValues.shape raw
  = if Nat.eqb 5 (List.length (columns raw) - 3) then
      let rs := map (drop_last 3) (rows raw) in
      if has_str_accessor (map (fun r => nth 2 r CNaN) rs) then
        Ok (mkDataFrame NoaaGhcnValues.columns
              (map (fun r => set_nth 2 (lower_cell (nth 2 r CNaN)) r) rs))
      else Raise AttributeError
    else Raise ValueError.
Proof.
  unfold NoaaGhcnValues.shape, set_columns, iloc_cols_drop_last.
  cbn [columns rows]. rewrite drop_last_length.
  change (List.length NoaaGhcnValues.columns) with 5.
  destruct (Nat.eqb 5 (List.length (columns raw) - 3)); [|reflexivity].
  cbn [bind_result]. unfold loc_col, str_lower. cbn [columns rows].
  change (get_loc (LStr Columns.PARAMETER) NoaaGhcnValues.columns)
    with (Some 2).
  cbn [bind_result].
  destruct (has_str_accessor _); [|reflexivity].
  cbn [bind_result]. unfold set_loc_col. cbn [columns rows].
  change (get_loc (LStr Columns.PARAMETER) NoaaGhcnValues.columns)
    with (Some 2).
  rewrite map_map.
  rewrite (assign_rows_map 2 (fun r => lower_cell (nth 2 r CNaN))).
  reflexivity.
Qed.

(** On a rectangular frame of eight columns, dropping the last three
    columns of a row keeps its first five cells. *)
Lemma drop_last_first_five (raw : DataFrame) :
  rectangular raw -> List.length (columns raw) = 8 ->
  map (drop_last 3) (rows raw) = map (firstn 5) (rows raw).
Proof.
  intros Hrect H8. apply map_ext_in. intros r Hr.
  unfold rectangular in Hrect. rewrite Forall_forall in Hrect.
  unfold drop_last. now rewrite (Hrect r Hr), H8.
Qed.

Lemma nth_firstn_2_5 (r : list cell) : nth 2 (firstn 5 r) CNaN = nth 2 r CNaN.
Proof. destruct r as [|a [|b [|c r]]]; reflexivity. Qed.

Lemma shape_eight_columns (raw : DataFrame) :
  rectangular raw -> List.length (columns raw) = 8 ->
  NoaaGhcnValues.shape raw
  = if has_str_accessor (parameter_codes raw)
    then Ok (mkDataFrame NoaaGhcnValues.columns
               (map collected_row (rows raw)))
    else Raise AttributeError.
Proof.
  intros Hrect H8. rewrite shape_unfold, H8. cbn [Nat.sub Nat.eqb].
  cbv zeta. rewrite (drop_last_first_five Hrect H8).
  unfold parameter_codes. rewrite !map_map.
  rewrite (map_ext (fun r => nth 2 (firstn 5 r) CNaN)
                   (fun r => nth 2 r CNaN) nth_firstn_2_5).
  destruct (has_str_accessor _); [|reflexivity].
  f_equal. f_equal. apply map_ext. intros r. unfold collected_row.
  now rewrite nth_firstn_2_5.
Qed.

Lemma shape_ok_eight_columns (raw out : DataFrame) :
  NoaaGhcnValues.shape raw = Ok out -> List.length (columns raw) = 8.
Proof.
  rewrite shape_unfold.
  destruct (Nat.eqb 5 (List.length (columns raw) - 3)) eqn:E;
    [|discriminate].
  apply Nat.eqb_eq in E. intros _. lia.
Qed.

(** What the collector does before and after [shape]. *)
Lemma collect_unfold (read_csv : Io.bytes -> result DataFrame)
    (station_id parameter dataset : string) (w : Net.world) :
  NoaaGhcnValues._collect_station_parameter read_csv station_id
    parameter dataset w
  = (match Net.remote w (NoaaGhcnValues._base_url station_id) with
     | Some file => bind_result (read_csv file) NoaaGhcnValues.shape
     | None => Raise NetworkError
     end,
     Net.mkWorld (Net.remote w)
       (Net.requested w ++ [NoaaGhcnValues._base_url station_id])).
Proof.
  unfold NoaaGhcnValues._collect_station_parameter, Net.bind, Net.http_get,
    Net.lift.
  destruct (Net.remote w (NoaaGhcnValues._base_url station_id))
    as [file|]; [|reflexivity].
  destruct (read_csv file); reflexivity.
Qed.

Lemma lower_cell_lowercase (c : cell) : lowercase_cell (lower_cell c).
Proof. destruct c; simpl; auto. apply PyStrFacts.lower_idem. Qed.

Lemma lower_cell_idem (c : cell) : lower_cell (lower_cell c) = lower_cell c.
Proof. destruct c; simpl; auto. now rewrite PyStrFacts.lower_idem. Qed.

Lemma existsb_is_str_lower (ser : list cell) :
  existsb is_str (map lower_cell ser) = existsb is_str ser.
Proof.
  induction ser as [|x xs IH]; [reflexivity|].
  cbn [map existsb]. rewrite IH. now destruct x.
Qed.

Lemma has_str_accessor_lower (ser : list cell) :
  has_str_accessor (map lower_cell ser) = has_str_accessor ser.
Proof.
  destruct ser as [|c ser]; [reflexivity|].
  apply (existsb_is_str_lower (c :: ser)).
Qed.

Lemma nth_2_set_nth_lower (r : list cell) :
  nth 2 (set_nth 2 (lower_cell (nth 2 r CNaN)) r) CNaN
  = lower_cell (nth 2 r CNaN).
Proof. destruct r as [|a [|b [|c r]]]; reflexivity. Qed.

(** The parameter column of the frame that [shape] returns is the
    lowercased third column of what is left of the file. *)
Lemma shape_parameter_column (raw out : DataFrame) :
  NoaaGhcnValues.shape raw = Ok out ->
  let codes := map (fun r => nth 2 r CNaN) (map (drop_last 3) (rows raw)) in
  has_str_accessor codes = true
  /\ loc_col (LStr Columns.PARAMETER) out = Ok (map lower_cell codes).
Proof.
  rewrite shape_unfold. cbv zeta.
  destruct (Nat.eqb 5 (List.length (columns raw) - 3)); [|discriminate].
  destruct (has_str_accessor _) eqn:Hacc; [|discriminate].
  intros H. inversion H as [Hout]. clear H Hout. split; [reflexivity|].
  unfold loc_col. cbn [columns rows].
  change (get_loc (LStr Columns.PARAMETER) NoaaGhcnValues.columns)
    with (Some 2).
  rewrite !map_map. f_equal. apply map_ext. intros r.
  apply nth_2_set_nth_lower.
Qed.

End ValuesFacts.

(** C2: when the collector returns a frame for a by-station file, the file
    has eight columns and the frame is made of its first five columns, in
    order, under the names station_id, date, parameter_code, value,
    quality_flag, with the parameter codes lowercased; the three trailing
    columns are gone.  For a file of eight columns whose third column
    holds strings the collector does return that frame. *)
Theorem collect_first_five_columns :
  forall (read_csv : Io.bytes -> result Pandas.DataFrame)
         (station_id parameter dataset : string) (w : Net.world)
         (file : Io.bytes) (raw : Pandas.DataFrame),
    Net.remote w (NoaaGhcnValues._base_url station_id) = Some file ->
    read_csv file = Ok raw ->
    Pandas.rectangular raw ->
    (List.length (Pandas.columns raw) = 8 ->
     Pandas.has_str_accessor (Stated.parameter_codes raw) = true ->
     fst (NoaaGhcnValues._collect_station_parameter read_csv station_id
            parameter dataset w)
     = Ok (Pandas.mkDataFrame
             [ Pandas.LStr "station_id"; Pandas.LStr "date";
               Pandas.LStr "parameter_code"; Pandas.LStr "value";
               Pandas.LStr "quality_flag" ]
             (map Stated.collected_row (Pandas.rows raw))))
    /\ (forall out,
          fst (NoaaGhcnValues._collect_station_parameter read_csv station_id
                 parameter dataset w) = Ok out ->
          List.length (Pandas.columns raw) = 8
          /\ Pandas.columns out
             = [ Pandas.LStr "station_id"; Pandas.LStr "date";
                 Pandas.LStr "parameter_code"; Pandas.LStr "value";
                 Pandas.LStr "quality_flag" ]
          /\ Pandas.rows out
             = map Stated.collected_row (Pandas.rows raw)).
Proof.
  intros read_csv station_id parameter dataset w file raw Hfile Hcsv Hrect.
  rewrite ValuesFacts.collect_unfold, Hfile, Hcsv. cbn [fst bind_result].
  split.
  - intros H8 Hstr.
    now rewrite (ValuesFacts.shape_eight_columns Hrect H8), Hstr.
  - intros out Hout.
    assert (H8 := ValuesFacts.shape_ok_eight_columns _ Hout).
    rewrite (ValuesFacts.shape_eight_columns Hrect H8) in Hout.
    destruct (Pandas.has_str_accessor _); [|discriminate].
    inversion Hout. auto.
Qed.

Lemma collect_first_five_columns_witness :
  fst (NoaaGhcnValues._collect_station_parameter
         (fun _ => Ok Samples.mixed_case_file)
         "GME00111464" "precipitation_height" "daily"
         Samples.one_station_world)
  = Ok (Pandas.mkDataFrame
          [ Pandas.LStr "station_id"; Pandas.LStr "date";
            Pandas.LStr "parameter_code"; Pandas.LStr "value";
            Pandas.LStr "quality_flag" ]
          [ [ Pandas.CStr "GME00111464"; Pandas.CNum 19310101;
              Pandas.CStr "tmax"; Pandas.CNum 12; Pandas.CNaN ];
            [ Pandas.CStr "GME00111464"; Pandas.CNum 19310101;
              Pandas.CStr "tmin"; Pandas.CNum (-23); Pandas.CNaN ] ]).
Proof.
  assert (Hrect : Pandas.rectangular Samples.mixed_case_file).
  { repeat constructor. }
  exact (proj1 (@collect_first_five_columns
                  (fun _ => Ok Samples.mixed_case_file)
                  "GME00111464" "precipitation_height" "daily"
                  Samples.one_station_world []
                  Samples.mixed_case_file
                  eq_refl eq_refl Hrect)
               eq_refl eq_refl).
Defined.

(** C3: every value of the parameter_code column of a frame that the
    collector returns is lowercase: a string there equals its own
    lowercasing, and lowercasing the column once more gives the column
    back. *)
Theorem collected_parameter_codes_lowercase :
  forall (read_csv : Io.bytes -> result Pandas.DataFrame)
         (station_id parameter dataset : string) (w : Net.world)
         (out : Pandas.DataFrame),
    fst (NoaaGhcnValues._collect_station_parameter read_csv station_id
           parameter dataset w) = Ok out ->
    exists codes,
      Pandas.loc_col (Pandas.LStr "parameter_code") out = Ok codes
      /\ Forall Stated.lowercase_cell codes
      /\ Pandas.str_lower codes = Ok codes.
Proof.
  intros read_csv station_id parameter dataset w out.
  rewrite ValuesFacts.collect_unfold. cbn [fst].
  destruct (Net.remote w _) as [file|]; [|discriminate].
  destruct (read_csv file) as [raw|e]; [|discriminate].
  cbn [bind_result]. intros Hshape.
  destruct (ValuesFacts.shape_parameter_column _ Hshape) as [Hacc Hcol].
  eexists. split; [exact Hcol|]. split.
  - apply Forall_forall. intros c Hc. apply in_map_iff in Hc.
    destruct Hc as (c0 & <- & _). apply ValuesFacts.lower_cell_lowercase.
  - unfold Pandas.str_lower.
    rewrite ValuesFacts.has_str_accessor_lower, Hacc. f_equal.
    rewrite map_map. apply map_ext. intros c.
    apply ValuesFacts.lower_cell_idem.
Qed.

Lemma collected_parameter_codes_lowercase_witness :
  exists codes,
    Pandas.loc_col (Pandas.LStr "parameter_code")
      (Pandas.mkDataFrame NoaaGhcnValues.columns
         (map Stated.collected_row
              (Pandas.rows Samples.mixed_case_file)))
    = Ok codes
    /\ Forall Stated.lowercase_cell codes
    /\ Pandas.str_lower codes = Ok codes.
Proof.
  exact (@collected_parameter_codes_lowercase
           (fun _ => Ok Samples.mixed_case_file)
           "GME00111464" "precipitation_height" "daily"
           Samples.one_station_world _ eq_refl).
Defined.

(* ------------------------------------------------------------------ *)
(** ** Parameter registry *)

Module RegistryFacts.

Import Registry.
Import Samples Stated.

Lemma Resolution_eqb_eq (a b : Resolution) :
  Resolution_eqb a b = true <-> a = b.
Proof. destruct a, b; simpl; split; congruence. Qed.

Lemma find_ext {A} (f g : A -> bool) (l : list A) :
  (forall x, f x = g x) -> find f l = find g l.
Proof.
  intros Hfg. induction l as [|x l IH]; simpl; [reflexivity|].
  now rewrite Hfg, IH.
Qed.

Lemma matches_upper (res : Resolution) (s : string) (e : entry) :
  matches res (PyStr.upper s) e = matches res s e.
Proof. unfold matches. now rewrite PyStrFacts.upper_idem. Qed.

Lemma matches_lower (res : Resolution) (s : string) (e : entry) :
  matches res (PyStr.lower s) e = matches res s e.
Proof. unfold matches. now rewrite PyStrFacts.upper_lower. Qed.

(** What it is for an entry to match. *)
Lemma matches_true (res : Resolution) (s : string) (e : entry) :
  matches res s e = true <->
  entry_resolution e = res
  /\ (PyStr.upper s = PyStr.upper (canonical_name (entry_parameter e))
      \/ PyStr.upper s = PyStr.upper (agency_code (entry_parameter e))).
Proof.
  unfold matches.
  rewrite andb_true_iff, orb_true_iff, Resolution_eqb_eq, !String.eqb_eq.
  intuition congruence.
Qed.

Lemma resolve_upper (reg : registry) (res : Resolution) (s : string) :
  resolve reg res (PyStr.upper s) = resolve reg res s.
Proof.
  unfold resolve.
  now rewrite (find_ext _ (matches res s) reg (matches_upper res s)).
Qed.

Lemma resolve_lower (reg : registry) (res : Resolution) (s : string) :
  resolve reg res (PyStr.lower s) = resolve reg res s.
Proof.
  unfold resolve.
  now rewrite (find_ext _ (matches res s) reg (matches_lower res s)).
Qed.

(** A resolved pair is an entry of the table that matches exactly. *)
Lemma resolve_ok (reg : registry) (res : Resolution) (s : string)
    (p : Param) (d : string) :
  resolve reg res s = Ok (p, d) ->
  In (mkEntry res d p) reg
  /\ (PyStr.upper s = PyStr.upper (canonical_name p)
      \/ PyStr.upper s = PyStr.upper (agency_code p)).
Proof.
  unfold resolve. destruct (find (matches res s) reg) as [e|] eqn:E;
    [|discriminate].
  intros H. inversion H; subst. clear H.
  apply find_some in E. destruct E as [Hin Hm].
  apply matches_true in Hm. destruct Hm as [<- Hm].
  split; [now destruct e | exact Hm].
Qed.

Lemma resolve_none (reg : registry) (res : Resolution) (s : string) :
  (forall e, In e reg -> matches res s e = false) ->
  resolve reg res s = Raise LookupError.
Proof.
  intros Hno. unfold resolve.
  destruct (find (matches res s) reg) as [e|] eqn:E; [|reflexivity].
  apply find_some in E. destruct E as [Hin Hm].
  rewrite (Hno e Hin) in Hm. discriminate.
Qed.

Lemma unknownb_spec (reg : registry) (res : Resolution) (s : string) :
  unknownb reg res s = true ->
  forall e, In e reg -> entry_resolution e = res ->
    PyStr.upper s <> PyStr.upper (canonical_name (entry_parameter e))
    /\ PyStr.upper s <> PyStr.upper (agency_code (entry_parameter e)).
Proof.
  unfold unknownb. rewrite forallb_forall. intros Hall e Hin Hres.
  specialize (Hall e Hin). apply negb_true_iff in Hall.
  split; intros Heq;
    (assert (Hm : matches res s e = true)
       by (apply matches_true; auto));
    congruence.
Qed.

End RegistryFacts.

(** C4: resolving the uppercase form and resolving the lowercase form of a
    string under the same resolution give the same result, the one of the
    string itself; a string that resolves does so to an entry of the table
    whose canonical name or agency code equals it after uppercasing, and to
    nothing else.  The tests that build a request from the members, from
    "tmk", ..., and from "TMK", ..., get the same reference list. *)
Theorem resolve_case_insensitive :
  forall (reg : Registry.registry) (res : Resolution) (s : string),
    Registry.resolve reg res (PyStr.upper s)
    = Registry.resolve reg res (PyStr.lower s)
    /\ Registry.resolve reg res (PyStr.upper s) = Registry.resolve reg res s
    /\ (forall p d,
          Registry.resolve reg res s = Ok (p, d) ->
          In (Registry.mkEntry res d p) reg
          /\ (PyStr.upper s = PyStr.upper (Registry.canonical_name p)
              \/ PyStr.upper s = PyStr.upper (Registry.agency_code p)))
    /\ TestParameters.constants = Ok TestParameters.parameters_reference
    /\ TestParameters.strings_lowercase
       = Ok TestParameters.parameters_reference
    /\ TestParameters.strings_uppercase
       = Ok TestParameters.parameters_reference.
Proof.
  intros reg res s.
  split; [|split; [|split; [|split; [|split]]]].
  - now rewrite RegistryFacts.resolve_upper, RegistryFacts.resolve_lower.
  - apply RegistryFacts.resolve_upper.
  - intros p d H. exact (RegistryFacts.resolve_ok reg res s H).
  - reflexivity.
  - reflexivity.
  - reflexivity.
Qed.

Lemma resolve_case_insensitive_witness :
  Registry.resolve Registry.noaa_ghcn DAILY "TmAx"
  = Ok (Registry.mkParam "TEMPERATURE_AIR_MAX_200" "tmax", "daily"%string)
  /\ In (Registry.mkEntry DAILY "daily"
           (Registry.mkParam "TEMPERATURE_AIR_MAX_200" "tmax"))
        Registry.noaa_ghcn
  /\ (PyStr.upper "TmAx" = PyStr.upper "TEMPERATURE_AIR_MAX_200"
      \/ PyStr.upper "TmAx" = PyStr.upper "tmax").
Proof.
  assert (H : Registry.resolve Registry.noaa_ghcn DAILY "TmAx"
              = Ok (Registry.mkParam "TEMPERATURE_AIR_MAX_200" "tmax",
                    "daily"%string)).
  { vm_compute. reflexivity. }
  split; [exact H|].
  exact (proj1 (proj2 (proj2
           (resolve_case_insensitive Registry.noaa_ghcn DAILY "TmAx")))
           _ _ H).
Defined.

(** C7: a string that matches no entry of the registry under the given
    resolution, neither as canonical name nor as agency code after
    uppercasing, does not resolve: the result is [LookupError], never a
    pair. *)
Theorem resolve_unknown_lookup_error :
  forall (reg : Registry.registry) (res : Resolution) (s : string),
    (forall e, In e reg -> Registry.entry_resolution e = res ->
       PyStr.upper s
       <> PyStr.upper (Registry.canonical_name (Registry.entry_parameter e))
       /\ PyStr.upper s
          <> PyStr.upper (Registry.agency_code (Registry.entry_parameter e)))
    ->
    Registry.resolve reg res s = Raise LookupError
    /\ forall pd, Registry.resolve reg res s <> Ok pd.
Proof.
  intros reg res s Hno.
  assert (H : Registry.resolve reg res s = Raise LookupError).
  { apply RegistryFacts.resolve_none. intros e Hin.
    destruct (Registry.matches res s e) eqn:Hm; [|reflexivity].
    apply RegistryFacts.matches_true in Hm. destruct Hm as [Hres Hm].
    destruct (Hno e Hin Hres) as [Hn Hc]. tauto. }
  split; [exact H|]. intros pd. rewrite H. discriminate.
Qed.

Lemma resolve_unknown_lookup_error_witness :
  Registry.resolve Registry.noaa_ghcn DAILY "temperature_unknown"
  = Raise LookupError
  /\ forall pd,
      Registry.resolve Registry.noaa_ghcn DAILY "temperature_unknown"
      <> Ok pd.
Proof.
  apply resolve_unknown_lookup_error.
  apply RegistryFacts.unknownb_spec. vm_compute. reflexivity.
Defined.

(* ------------------------------------------------------------------ *)
(** ** [NoaaGhcnParameter.DAILY] *)

Module ParameterFacts.

Lemma str_in_In (x : string) (xs : list string) :
  PyStr.str_in x xs = true <-> In x xs.
Proof.
  unfold PyStr.str_in. rewrite existsb_exists. split.
  - intros (y & Hy & Heq). apply String.eqb_eq in Heq. now subst.
  - intros Hin. exists x. split; [exact Hin | apply String.eqb_refl].
Qed.

Lemma distinctb_NoDup (xs : list string) :
  distinctb xs = true -> NoDup xs.
Proof.
  induction xs as [|x xs IH]; simpl; intros H; constructor.
  - apply andb_true_iff in H. destruct H as [H _].
    apply negb_true_iff in H. intros Hin. apply str_in_In in Hin.
    congruence.
  - apply IH. apply andb_true_iff in H. tauto.
Qed.

(** In an enumeration without repeated values a value has one name. *)
Lemma value_names_one (body : list (string * string)) :
  NoDup (map snd body) ->
  forall n1 n2 v, In (n1, v) body -> In (n2, v) body -> n1 = n2.
Proof.
  induction body as [|[n v0] body IH]; simpl; intros Hnd n1 n2 v H1 H2;
    [contradiction|].
  inversion Hnd as [|? ? Hnotin Hnd']; subst.
  destruct H1 as [H1|H1], H2 as [H2|H2].
  - congruence.
  - inversion H1; subst. exfalso. apply Hnotin.
    apply (in_map snd) in H2. exact H2.
  - inversion H2; subst. exfalso. apply Hnotin.
    apply (in_map snd) in H1. exact H1.
  - now apply (IH Hnd' n1 n2 v).
Qed.

Lemma DAILY_values_NoDup : NoDup (map snd NoaaGhcnParameter.DAILY).
Proof. apply distinctb_NoDup. vm_compute. reflexivity. Qed.

End ParameterFacts.

(** C8: within [NoaaGhcnParameter.DAILY] the agency code is unique: two
    distinct canonical names never carry the same code, so that no name of
    the enumeration is an alias of another; the enumeration has its 203
    names as members. *)
Theorem ghcn_daily_agency_code_unique :
  forall n1 c1 n2 c2 : string,
    In (n1, c1) NoaaGhcnParameter.DAILY ->
    In (n2, c2) NoaaGhcnParameter.DAILY ->
    n1 <> n2 ->
    c1 <> c2
    /\ enum_members NoaaGhcnParameter.DAILY = NoaaGhcnParameter.DAILY
    /\ List.length (enum_members NoaaGhcnParameter.DAILY) = 203.
Proof.
  intros n1 c1 n2 c2 H1 H2 Hn. split.
  - intros Hc. subst c2. apply Hn.
    exact (ParameterFacts.value_names_one _
             ParameterFacts.DAILY_values_NoDup _ _ _ H1 H2).
  - split; vm_compute; reflexivity.
Qed.

Lemma ghcn_daily_agency_code_unique_witness :
  ("prcp" <> "snow")%string
  /\ enum_members NoaaGhcnParameter.DAILY = NoaaGhcnParameter.DAILY
  /\ List.length (enum_members NoaaGhcnParameter.DAILY) = 203.
Proof.
  apply (@ghcn_daily_agency_code_unique
           "PRECIPITATION_HEIGHT" "prcp" "SNOW_DEPTH_NEW" "snow").
  - left. reflexivity.
  - right. left. reflexivity.
  - discriminate.
Defined.

(* ------------------------------------------------------------------ *)
(** ** Request construction *)

Module RequestFacts.

Import ScalarRequestCore.

Lemma inverted_true (s e : Z) : (e < s)%Z -> inverted (Some s) (Some e) = true.
Proof. intros H. simpl. now apply Z.ltb_lt. Qed.

(** An inverted range fails the construction for every provider, whatever
    the other arguments. *)
Lemma core_init_inverted (cls : provider) (parameter : list string)
    (r : Resolution) (p : Period) (s e : Z) (humanize tidy si_units : bool) :
  (e < s)%Z ->
  __init__ cls parameter r p (Some s) (Some e) humanize tidy si_units
  = Raise ValidationError.
Proof.
  intros H. unfold __init__. rewrite (inverted_true H).
  now destruct (negb (supported cls r p)).
Qed.

(** A request that was built holds the resolution and the period it was
    built with, and the provider supports them. *)
Lemma core_init_ok (cls : provider) (parameter : list string)
    (r : Resolution) (p : Period) (s e : option Z)
    (humanize tidy si_units : bool) (req : Request) :
  __init__ cls parameter r p s e humanize tidy si_units = Ok req ->
  resolution req = r /\ period req = p /\ supported cls r p = true
  /\ inverted s e = false.
Proof.
  unfold __init__.
  destruct (supported cls r p); cbn [negb]; [|discriminate].
  destruct (inverted s e); [discriminate|].
  destruct (Registry.resolve_all _ _ _) as [ps|err]; cbn [bind_result];
    [|discriminate].
  intros H. inversion H. auto.
Qed.

Lemma ghcn_supported (r : Resolution) (p : Period) :
  supported NoaaGhcnRequest.cls r p = true -> r = DAILY /\ p = HISTORICAL.
Proof. destruct r, p; simpl; intros H; try discriminate; auto. Qed.

(** Once the request is built, the first thing [main] does is to ask for
    the station listing. *)
Lemma main_requests_listing (read_csv : Io.bytes -> result Pandas.DataFrame)
    (parameter : list string) (s e : option Z) (humanize tidy si_units : bool)
    (station_id : string) (w : Net.world) (req : Request) :
  NoaaGhcnRequest.__init__ parameter s e humanize tidy si_units = Ok req ->
  exists rest,
    Net.requested
      (snd (NoaaGhcnRequest.main read_csv parameter s e humanize tidy
              si_units station_id w))
    = Net.requested w ++ NoaaGhcnRequest._base_url :: rest.
Proof.
  intros Hreq. unfold NoaaGhcnRequest.main, Net.bind at 1, Net.lift at 1.
  rewrite Hreq.
  unfold Net.bind at 1, NoaaGhcnRequest._all, Net.bind at 1, Net.http_get at 1.
  destruct (Net.remote w NoaaGhcnRequest._base_url) as [body|].
  - unfold Net.lift at 1.
    destruct (NoaaGhcnRequest.parse_listing _) as [df|err].
    + rewrite ValuesFacts.collect_unfold. cbn [snd Net.requested Net.remote].
      rewrite <- app_assoc. eexists. reflexivity.
    + cbn [snd Net.requested]. exists []. reflexivity.
  - cbn [snd Net.requested]. exists []. reflexivity.
Qed.

End RequestFacts.

(** C6: a request whose start date is after its end date is not built:
    the construction fails with [ValidationError], for the NOAA GHCN
    request as for every provider; and a run that builds the request, gets
    the listing and collects a station's values fails there and leaves the
    world as it was, with no URL requested. *)
Theorem inverted_date_range_validation_error :
  forall (read_csv : Io.bytes -> result Pandas.DataFrame)
         (cls : ScalarRequestCore.provider)
         (parameter : list string) (r : Resolution) (p : Period)
         (s e : Z) (humanize tidy si_units : bool)
         (station_id : string) (w : Net.world),
    (e < s)%Z ->
    ScalarRequestCore.__init__ cls parameter r p (Some s) (Some e)
      humanize tidy si_units = Raise ValidationError
    /\ NoaaGhcnRequest.__init__ parameter (Some s) (Some e)
         humanize tidy si_units = Raise ValidationError
    /\ NoaaGhcnRequest.main read_csv parameter (Some s) (Some e)
         humanize tidy si_units station_id w
       = (Raise ValidationError, w).
Proof.
  intros read_csv cls parameter r p s e humanize tidy si_units station_id w
         Hinv.
  split; [now apply RequestFacts.core_init_inverted|].
  assert (H : NoaaGhcnRequest.__init__ parameter (Some s) (Some e)
                humanize tidy si_units = Raise ValidationError)
    by now apply RequestFacts.core_init_inverted.
  split; [exact H|].
  unfold NoaaGhcnRequest.main, Net.bind at 1, Net.lift at 1.
  now rewrite H.
Qed.

Lemma inverted_date_range_validation_error_witness :
  (1609459200 < 1612137600)%Z
  /\ ScalarRequestCore.__init__ NoaaGhcnRequest.cls ["precipitation_height"%string]
       DAILY HISTORICAL (Some 1612137600%Z) (Some 1609459200%Z)
       true true true = Raise ValidationError
  /\ NoaaGhcnRequest.__init__ ["precipitation_height"%string]
       (Some 1612137600%Z) (Some 1609459200%Z) true true true
     = Raise ValidationError
  /\ NoaaGhcnRequest.main (fun _ => Ok Samples.mixed_case_file)
       ["precipitation_height"%string]
       (Some 1612137600%Z) (Some 1609459200%Z) true true true
       "GME00111464" Samples.one_station_world
     = (Raise ValidationError, Samples.one_station_world).
Proof.
  assert (H : (1609459200 < 1612137600)%Z) by lia.
  split; [exact H|].
  exact (@inverted_date_range_validation_error
           (fun _ => Ok Samples.mixed_case_file) NoaaGhcnRequest.cls
           ["precipitation_height"%string] DAILY HISTORICAL
           1612137600%Z 1609459200%Z true true true
           "GME00111464" Samples.one_station_world H).
Defined.

(** C10: [NoaaGhcnRequest.__init__] has no resolution and no period
    argument and always hands [Resolution.DAILY] and [Period.HISTORICAL]
    to the base class; every request it builds has resolution DAILY and
    period HISTORICAL, and with the class attributes of [NoaaGhcnRequest]
    no other combination can be built. *)
Theorem ghcn_request_daily_historical :
  forall (parameter : list string) (s e : option Z)
         (humanize tidy si_units : bool),
    NoaaGhcnRequest.__init__ parameter s e humanize tidy si_units
    = ScalarRequestCore.__init__ NoaaGhcnRequest.cls parameter
        DAILY HISTORICAL s e humanize tidy si_units
    /\ (forall req,
          NoaaGhcnRequest.__init__ parameter s e humanize tidy si_units
          = Ok req ->
          ScalarRequestCore.resolution req = DAILY
          /\ ScalarRequestCore.period req = HISTORICAL)
    /\ (forall r p req,
          ScalarRequestCore.__init__ NoaaGhcnRequest.cls parameter r p
            s e humanize tidy si_units = Ok req ->
          r = DAILY /\ p = HISTORICAL).
Proof.
  intros parameter s e humanize tidy si_units.
  split; [reflexivity|]. split.
  - intros req Hreq. apply RequestFacts.core_init_ok in Hreq. tauto.
  - intros r p req Hreq. apply RequestFacts.core_init_ok in Hreq.
    apply RequestFacts.ghcn_supported. tauto.
Qed.

Lemma ghcn_request_daily_historical_witness :
  exists req,
    NoaaGhcnRequest.__init__ ["precipitation_height"%string] None None
      true true true = Ok req
    /\ ScalarRequestCore.resolution req = DAILY
    /\ ScalarRequestCore.period req = HISTORICAL.
Proof.
  eexists. split; [vm_compute; reflexivity|].
  apply (proj1 (proj2 (ghcn_request_daily_historical
                         ["precipitation_height"%string] None None
                         true true true))).
  vm_compute. reflexivity.
Defined.

(* ------------------------------------------------------------------ *)
(** ** Tidy and wide frames *)

Module TidyFacts.

Import Pandas Tidy.
Import Samples Stated.

(** *** The order of names *)




(** *** Sorting *)






(** *** Each name once, each key once *)







(** *** Readings *)







End TidyFacts.



(* ------------------------------------------------------------------ *)
(** ** [read_in_chunks] over [io.BytesIO] and over endless sources *)

Module ChunkFacts.

Import Io.
Import Stated.

Section Generator.

Variable file_object : Type.
Variable read : file_object -> Z -> bytes * file_object.
Variable chunk_size : Z.

(** The reads listed by [reads] are the reads numbered from 0. *)
Lemma reads_nth_read (k : nat) :
  forall f,
    reads read k chunk_size f
    = map (fun j => nth_read read j chunk_size f) (seq 0 k).
Proof.
  induction k as [|k IH]; intros f; [reflexivity|].
  cbn [reads seq map]. f_equal.
  rewrite IH, <- seq_shift, map_map. reflexivity.
Qed.

(** Without an empty read within the fuel, the generator is still
    running when the fuel is used up. *)
Lemma drain_out_of_fuel (fuel : nat) :
  forall f,
    (forall j, j < fuel -> nth_read read j chunk_size f <> []) ->
    drain read fuel chunk_size (Running f) = None.
Proof.
  induction fuel as [|fuel IH]; intros f Hne; [reflexivity|].
  assert (H0 : nth_read read 0 chunk_size f <> []) by (apply Hne; lia).
  assert (Hrest : forall j, j < fuel ->
            nth_read read j chunk_size (snd (read f chunk_size)) <> []).
  { intros j Hj. rewrite <- IoFacts.nth_read_S. apply Hne. lia. }
  specialize (IH _ Hrest).
  unfold nth_read in H0. cbn [after_reads] in H0.
  cbn [drain next].
  destruct (read f chunk_size) as [d f']. cbn [fst snd] in *.
  destruct d as [|b d]; [congruence|]. cbn [falsy]. now rewrite IH.
Qed.

(** What [list(gen)] returns is fixed by the first empty read. *)
Lemma drain_Some_inv (k fuel : nat) (f : file_object) chunks g :
  nth_read read k chunk_size f = [] ->
  (forall j, j < k -> nth_read read j chunk_size f <> []) ->
  drain read fuel chunk_size (Running f) = Some (chunks, g) ->
  k < fuel
  /\ chunks = reads read k chunk_size f
  /\ g = Finished (after_reads read (S k) chunk_size f).
Proof.
  intros Hk Hbefore Hdrain.
  destruct (Nat.lt_ge_cases k fuel) as [Hlt|Hge].
  - rewrite (@IoFacts.drain_until_empty _ read chunk_size k f fuel
               Hk Hbefore Hlt) in Hdrain.
    inversion Hdrain. auto.
  - rewrite drain_out_of_fuel in Hdrain; [discriminate|].
    intros j Hj. apply Hbefore. lia.
Qed.

End Generator.

(** *** [BytesIO] *)

Lemma BytesIO_after_reads (size : Z) (j : nat) :
  (0 <= size)%Z ->
  forall f,
    after_reads BytesIO_read j size f
    = mkBytesIO (buffer f)
        (pos f + Nat.min (j * Z.to_nat size) (remaining f)).
Proof.
  intros Hsize.
  assert (Hnn : (size <? 0)%Z = false) by (apply Z.ltb_ge; lia).
  induction j as [|j IH]; intros f.
  - cbn [after_reads Nat.mul Nat.min]. rewrite Nat.add_0_r. now destruct f.
  - cbn [after_reads]. rewrite IH. unfold BytesIO_read, remaining.
    rewrite Hnn. cbn [snd buffer pos].
    rewrite length_firstn, length_skipn. f_equal.
    change (S j * Z.to_nat size) with (Z.to_nat size + j * Z.to_nat size).
    lia.
Qed.

Lemma BytesIO_nth_read (size : Z) (j : nat) (f : BytesIO) :
  (0 <= size)%Z ->
  j * Z.to_nat size <= remaining f ->
  nth_read BytesIO_read j size f
  = firstn (Z.to_nat size) (skipn (pos f + j * Z.to_nat size) (buffer f)).
Proof.
  intros Hsize Hj. unfold nth_read.
  rewrite BytesIO_after_reads by exact Hsize.
  unfold BytesIO_read. cbn [buffer pos].
  assert (Hnn : (size <? 0)%Z = false) by (apply Z.ltb_ge; lia).
  rewrite Hnn. cbn [fst]. now rewrite Nat.min_l by exact Hj.
Qed.

Lemma chunk_count_spec (size : Z) (f : BytesIO) :
  (0 < size)%Z ->
  remaining f <= chunk_count size f * Z.to_nat size
  /\ forall j, j < chunk_count size f -> j * Z.to_nat size < remaining f.
Proof.
  intros Hsize. unfold chunk_count.
  set (n := Z.to_nat size). set (r := remaining f).
  assert (Hn : 0 < n) by (subst n; lia).
  pose proof (Nat.div_mod_eq (r + n - 1) n) as Hdm.
  pose proof (Nat.mod_upper_bound (r + n - 1) n ltac:(lia)) as Hmod.
  set (q := (r + n - 1) / n) in *. set (m := (r + n - 1) mod n) in *.
  split; [nia|]. intros j Hj.
  assert (S j <= q) by lia.
  assert (n * S j <= n * q) by (apply Nat.mul_le_mono_l; lia).
  nia.
Qed.

(** For a positive size the first empty read is the one numbered
    [chunk_count], and the reads before it are the slices. *)
Lemma BytesIO_first_empty (size : Z) (f : BytesIO) :
  (0 < size)%Z ->
  nth_read BytesIO_read (chunk_count size f) size f = []
  /\ (forall j, j < chunk_count size f ->
        nth_read BytesIO_read j size f <> [])
  /\ reads BytesIO_read (chunk_count size f) size f
     = map (slice_at size f) (seq 0 (chunk_count size f))
  /\ after_reads BytesIO_read (S (chunk_count size f)) size f = at_end f.
Proof.
  intros Hsize.
  destruct (chunk_count_spec f Hsize) as [Hup Hlow].
  assert (Hnn : (size <? 0)%Z = false) by (apply Z.ltb_ge; lia).
  assert (Hn : 0 < Z.to_nat size) by lia.
  assert (Hslice : forall j, j < chunk_count size f ->
            nth_read BytesIO_read j size f = slice_at size f j).
  { intros j Hj. apply BytesIO_nth_read; [lia|].
    specialize (Hlow j Hj). lia. }
  split; [|split; [|split]].
  - unfold nth_read. rewrite BytesIO_after_reads by lia.
    unfold BytesIO_read. cbn [buffer pos]. rewrite Hnn. cbn [fst].
    rewrite Nat.min_r by exact Hup.
    rewrite skipn_all2; [apply firstn_nil|]. unfold remaining. lia.
  - intros j Hj. rewrite (Hslice j Hj). unfold slice_at. intros Hnil.
    apply (f_equal (@List.length byte)) in Hnil.
    rewrite length_firstn, length_skipn in Hnil. cbn [List.length] in Hnil.
    specialize (Hlow j Hj). unfold remaining in Hlow. lia.
  - rewrite reads_nth_read. apply map_ext_in. intros j Hj.
    apply in_seq in Hj. apply Hslice. lia.
  - rewrite BytesIO_after_reads by lia. unfold at_end. f_equal. f_equal.
    apply Nat.min_r.
    change (S (chunk_count size f) * Z.to_nat size)
      with (Z.to_nat size + chunk_count size f * Z.to_nat size).
    lia.
Qed.

(** After an empty read with a size other than zero nothing is left. *)
Lemma BytesIO_empty_read (size : Z) (f : BytesIO) :
  size <> 0%Z ->
  fst (BytesIO_read f size) = [] ->
  remaining f = 0 /\ snd (BytesIO_read f size) = f.
Proof.
  intros Hsize. unfold BytesIO_read, remaining.
  destruct (size <? 0)%Z eqn:E; cbn [fst snd]; intros Hnil.
  - rewrite Hnil. cbn [List.length]. rewrite Nat.add_0_r.
    apply (f_equal (@List.length byte)) in Hnil.
    rewrite length_skipn in Hnil. cbn [List.length] in Hnil.
    split; [exact Hnil | now destruct f].
  - rewrite Hnil. cbn [List.length]. rewrite Nat.add_0_r.
    apply (f_equal (@List.length byte)) in Hnil.
    rewrite length_firstn, length_skipn in Hnil. cbn [List.length] in Hnil.
    apply Z.ltb_ge in E.
    split; [lia | now destruct f].
Qed.

(** With nothing left every read is empty and leaves the file object as
    it is. *)
Lemma BytesIO_read_at_end (size : Z) (f : BytesIO) :
  remaining f = 0 -> BytesIO_read f size = ([], f).
Proof.
  unfold remaining, BytesIO_read. intros Hrem.
  rewrite skipn_all2 by lia. rewrite firstn_nil. cbn [List.length].
  rewrite Nat.add_0_r. destruct f. now destruct (size <? 0)%Z.
Qed.

End ChunkFacts.

(** X1: reading an [io.BytesIO] with a positive chunk size yields its bytes
    from the position on cut into consecutive pieces: chunk [j] is
    [buffer[pos + j*size : pos + (j+1)*size]], there are as many chunks as
    the bytes left divided by the size, rounded up, their concatenation is
    [buffer[pos:]], and the file object is left at the end of the
    buffer. *)
Theorem BytesIO_chunks_are_slices :
  forall (size : Z) (f : Io.BytesIO) (fuel : nat),
    (0 < size)%Z ->
    Stated.chunk_count size f < fuel ->
    Io.drain Io.BytesIO_read fuel size (Io.read_in_chunks f size)
    = Some (map (Stated.slice_at size f)
                (seq 0 (Stated.chunk_count size f)),
            Io.Finished (Stated.at_end f))
    /\ List.concat (map (Stated.slice_at size f)
                       (seq 0 (Stated.chunk_count size f)))
       = skipn (Io.pos f) (Io.buffer f).
Proof.
  intros size f fuel Hsize Hfuel.
  destruct (ChunkFacts.BytesIO_first_empty f Hsize)
    as (Hk & Hbefore & Hreads & Hend).
  split.
  - unfold Io.read_in_chunks.
    rewrite (@IoFacts.drain_until_empty _ Io.BytesIO_read size
               (Stated.chunk_count size f) f fuel Hk Hbefore Hfuel).
    now rewrite Hreads, Hend.
  - rewrite <- Hreads.
    now apply IoFacts.BytesIO_chunks_content.
Qed.

Lemma BytesIO_chunks_are_slices_witness :
  Io.drain Io.BytesIO_read 3 2 (Io.read_in_chunks (Io.mkBytesIO Samples.abc 0) 2)
  = Some ([[x61; x62]; [x63]], Io.Finished (Io.mkBytesIO Samples.abc 3))
  /\ List.concat [[x61; x62]; [x63]] = Samples.abc.
Proof.
  exact (@BytesIO_chunks_are_slices 2 (Io.mkBytesIO Samples.abc 0) 3
           eq_refl (le_n 3)).
Defined.

(** X2: when an [io.BytesIO] is read in chunks of a positive size, every
    chunk but the last has exactly that many bytes, and the last has at
    least one byte and at most that many. *)
Theorem BytesIO_chunk_lengths :
  forall (size : Z) (f : Io.BytesIO) (fuel : nat) chunks g,
    (0 < size)%Z ->
    Io.drain Io.BytesIO_read fuel size (Io.read_in_chunks f size)
    = Some (chunks, g) ->
    List.length chunks = Stated.chunk_count size f
    /\ forall j c,
        nth_error chunks j = Some c ->
        (S j < List.length chunks ->
         Z.of_nat (List.length c) = size)
        /\ (1 <= Z.of_nat (List.length c) <= size)%Z.
Proof.
  intros size f fuel chunks g Hsize Hdrain.
  destruct (ChunkFacts.BytesIO_first_empty f Hsize)
    as (Hk & Hbefore & Hreads & _).
  destruct (ChunkFacts.drain_Some_inv _ _ _ _ Hk Hbefore Hdrain)
    as (_ & -> & _).
  rewrite Hreads. rewrite length_map, length_seq.
  split; [reflexivity|].
  intros j c Hj.
  assert (Hlt : j < Stated.chunk_count size f).
  { assert (Hsome : nth_error
                      (map (Stated.slice_at size f)
                           (seq 0 (Stated.chunk_count size f))) j <> None)
      by congruence.
    apply nth_error_Some in Hsome.
    now rewrite length_map, length_seq in Hsome. }
  rewrite nth_error_map, nth_error_seq in Hj.
  apply Nat.ltb_lt in Hlt as Hltb. rewrite Hltb in Hj.
  cbn [option_map Nat.add] in Hj. inversion Hj as [Hc]. clear Hj.
  destruct (ChunkFacts.chunk_count_spec f Hsize) as [Hup Hlow].
  specialize (Hlow j Hlt) as Hj.
  unfold Stated.slice_at, Stated.remaining in *.
  rewrite length_firstn, length_skipn.
  split.
  - intros HS. specialize (Hlow (S j) HS).
    change (S j * Z.to_nat size) with (Z.to_nat size + j * Z.to_nat size)
      in Hlow.
    lia.
  - lia.
Qed.

Lemma BytesIO_chunk_lengths_witness :
  List.length [[x61; x62]; [x63]]
  = Stated.chunk_count 2 (Io.mkBytesIO Samples.abc 0)
  /\ forall j c,
      nth_error [[x61; x62]; [x63]] j = Some c ->
      (S j < List.length [[x61; x62]; [x63]] ->
       Z.of_nat (List.length c) = 2%Z)
      /\ (1 <= Z.of_nat (List.length c) <= 2)%Z.
Proof.
  exact (@BytesIO_chunk_lengths 2 (Io.mkBytesIO Samples.abc 0) 3
           [[x61; x62]; [x63]] (Io.Finished (Io.mkBytesIO Samples.abc 3))
           eq_refl eq_refl).
Defined.

(** X3: with [chunk_size = 0] an [io.BytesIO] yields no chunk at all,
    whatever it holds, and is left where it was: the first read is empty
    and ends the iteration. *)
Theorem BytesIO_zero_chunk_size :
  forall (f : Io.BytesIO) (fuel : nat),
    Io.drain Io.BytesIO_read (S fuel) 0 (Io.read_in_chunks f 0)
    = Some ([], Io.Finished f).
Proof.
  intros f fuel. cbn [Io.drain Io.next Io.read_in_chunks].
  unfold Io.BytesIO_read. cbn [Z.ltb Z.compare Z.to_nat firstn].
  cbn [Io.falsy List.length]. rewrite Nat.add_0_r. now destruct f.
Qed.

(** X4: an [io.BytesIO] that was read to the end by one generator, with a
    chunk size other than zero, yields nothing to a second generator,
    whatever the chunk size of the second: the source is not rewound. *)
Theorem BytesIO_exhausted_yields_nothing :
  forall (size size' : Z) (f f' : Io.BytesIO) (fuel fuel' : nat) chunks,
    size <> 0%Z ->
    Io.drain Io.BytesIO_read fuel size (Io.read_in_chunks f size)
    = Some (chunks, Io.Finished f') ->
    Io.drain Io.BytesIO_read (S fuel') size' (Io.read_in_chunks f' size')
    = Some ([], Io.Finished f').
Proof.
  intros size size' f f' fuel fuel' chunks Hsize Hdrain.
  destruct (IoFacts.first_empty_read (IoFacts.BytesIO_finite_source size f))
    as (k & Hk & Hbefore).
  destruct (ChunkFacts.drain_Some_inv _ _ _ _ Hk Hbefore Hdrain)
    as (_ & _ & Hg).
  inversion Hg as [Hf']. clear Hg.
  assert (Hrem : Stated.remaining f' = 0).
  { rewrite Hf'.
    change (Io.after_reads Io.BytesIO_read (S k) size f)
      with (Io.after_reads Io.BytesIO_read k size
              (snd (Io.BytesIO_read f size))).
    clear Hf' Hdrain Hbefore. revert f Hk.
    induction k as [|k IH]; intros f Hk.
    - unfold Io.nth_read in Hk. cbn [Io.after_reads] in *.
      destruct (ChunkFacts.BytesIO_empty_read f Hsize Hk) as [Hrem Hsame].
      now rewrite Hsame.
    - rewrite IoFacts.nth_read_S in Hk. cbn [Io.after_reads].
      exact (IH _ Hk). }
  rewrite <- Hf'. cbn [Io.drain Io.next Io.read_in_chunks].
  now rewrite (ChunkFacts.BytesIO_read_at_end size' f' Hrem).
Qed.

Lemma BytesIO_exhausted_yields_nothing_witness :
  Io.drain Io.BytesIO_read 1 1 (Io.read_in_chunks (Io.mkBytesIO Samples.abc 3) 1)
  = Some ([], Io.Finished (Io.mkBytesIO Samples.abc 3)).
Proof.
  refine (@BytesIO_exhausted_yields_nothing 2 1
            (Io.mkBytesIO Samples.abc 0) (Io.mkBytesIO Samples.abc 3)
            3 0 [[x61; x62]; [x63]] _ eq_refl).
  discriminate.
Defined.

(** X5: with a negative chunk size an [io.BytesIO] that has bytes left
    yields them all as one chunk. *)
Theorem BytesIO_negative_chunk_size :
  forall (size : Z) (f : Io.BytesIO) (fuel : nat),
    (size < 0)%Z ->
    Io.pos f < List.length (Io.buffer f) ->
    Io.drain Io.BytesIO_read (S (S fuel)) size (Io.read_in_chunks f size)
    = Some ([skipn (Io.pos f) (Io.buffer f)], Io.Finished (Stated.at_end f)).
Proof.
  intros size f fuel Hsize Hpos.
  apply Z.ltb_lt in Hsize.
  cbn [Io.drain Io.next Io.read_in_chunks].
  unfold Io.BytesIO_read at 1. rewrite Hsize.
  destruct (skipn (Io.pos f) (Io.buffer f)) as [|b rest] eqn:E.
  - apply (f_equal (@List.length byte)) in E. rewrite length_skipn in E.
    cbn [List.length] in E. lia.
  - cbn [Io.falsy].
    cbn [Io.next]. unfold Io.BytesIO_read. rewrite Hsize.
    cbn [Io.buffer Io.pos].
    assert (Hlen : List.length (b :: rest)
                   = List.length (Io.buffer f) - Io.pos f).
    { rewrite <- E. apply length_skipn. }
    rewrite skipn_all2 by lia. cbn [Io.falsy].
    unfold Stated.at_end, Stated.remaining.
    rewrite Hlen. cbn [List.length]. now rewrite Nat.add_0_r.
Qed.

Lemma BytesIO_negative_chunk_size_witness :
  Io.drain Io.BytesIO_read 2 (-1) (Io.read_in_chunks (Io.mkBytesIO Samples.abc 1) (-1))
  = Some ([[x62; x63]], Io.Finished (Io.mkBytesIO Samples.abc 3)).
Proof.
  refine (@BytesIO_negative_chunk_size (-1) (Io.mkBytesIO Samples.abc 1) 0
            eq_refl _).
  simpl. lia.
Defined.

(** X6: on a file object none of whose reads is empty the generator never
    finishes: however many chunks are taken, it has not stopped. *)
Theorem read_in_chunks_endless_source :
  forall (file_object : Type)
         (read : file_object -> Z -> Io.bytes * file_object)
         (chunk_size : Z) (f : file_object),
    (forall k, Io.nth_read read k chunk_size f <> []) ->
    forall fuel,
      Io.drain read fuel chunk_size (Io.read_in_chunks f chunk_size) = None.
Proof.
  intros file_object read chunk_size f Hendless fuel.
  apply ChunkFacts.drain_out_of_fuel. intros j _. apply Hendless.
Qed.

Lemma read_in_chunks_endless_source_witness :
  Io.drain Stated.zeros 1000 1024 (Io.read_in_chunks tt 1024) = None.
Proof.
  refine (@read_in_chunks_endless_source unit Stated.zeros 1024 tt _ 1000).
  intros k. unfold Io.nth_read. discriminate.
Defined.

(* ------------------------------------------------------------------ *)
(** ** [NoaaGhcnParameter.DAILY] as an enumeration *)

Module EnumFacts.

Import Stated.

Lemma find_fst_In (body : list (string * string)) (n v : string) :
  enum_by_name body n = Some v -> In (n, v) body.
Proof.
  unfold enum_by_name.
  destruct (find _ body) as [[n' v']|] eqn:E; [|discriminate].
  cbn [option_map snd]. intros H. inversion H; subst.
  apply find_some in E. destruct E as [Hin Heq]. cbn [fst] in Heq.
  apply String.eqb_eq in Heq. now subst.
Qed.

Lemma find_snd_In (body : list (string * string)) (n v : string) :
  enum_by_value body v = Some n -> In (n, v) body.
Proof.
  unfold enum_by_value.
  destruct (find _ body) as [[n' v']|] eqn:E; [|discriminate].
  cbn [option_map fst]. intros H. inversion H; subst.
  apply find_some in E. destruct E as [Hin Heq]. cbn [snd] in Heq.
  apply String.eqb_eq in Heq. now subst.
Qed.

(** In an enumeration without repeated names a name has one value. *)
Lemma name_values_one (body : list (string * string)) :
  NoDup (map fst body) ->
  forall n v1 v2, In (n, v1) body -> In (n, v2) body -> v1 = v2.
Proof.
  induction body as [|[n0 v0] body IH]; simpl; intros Hnd n v1 v2 H1 H2;
    [contradiction|].
  inversion Hnd as [|? ? Hnotin Hnd']; subst.
  destruct H1 as [H1|H1], H2 as [H2|H2].
  - congruence.
  - inversion H1; subst. exfalso. apply Hnotin.
    apply (in_map fst) in H2. exact H2.
  - inversion H2; subst. exfalso. apply Hnotin.
    apply (in_map fst) in H1. exact H1.
  - now apply (IH Hnd' n).
Qed.

Lemma In_enum_by_name (body : list (string * string)) (n v : string) :
  NoDup (map fst body) -> In (n, v) body -> enum_by_name body n = Some v.
Proof.
  intros Hnd Hin. unfold enum_by_name.
  destruct (find _ body) as [[n' v']|] eqn:E.
  - apply find_some in E. destruct E as [Hin' Heq]. cbn [fst] in Heq.
    apply String.eqb_eq in Heq. subst n'. cbn [option_map snd].
    f_equal. exact (name_values_one body Hnd _ _ _ Hin' Hin).
  - apply (find_none _ _ E) in Hin. cbn [fst] in Hin.
    rewrite String.eqb_refl in Hin. discriminate.
Qed.

Lemma In_enum_by_value (body : list (string * string)) (n v : string) :
  NoDup (map snd body) -> In (n, v) body -> enum_by_value body v = Some n.
Proof.
  intros Hnd Hin. unfold enum_by_value.
  destruct (find _ body) as [[n' v']|] eqn:E.
  - apply find_some in E. destruct E as [Hin' Heq]. cbn [snd] in Heq.
    apply String.eqb_eq in Heq. subst v'. cbn [option_map fst].
    f_equal. exact (ParameterFacts.value_names_one body Hnd _ _ _ Hin' Hin).
  - apply (find_none _ _ E) in Hin. cbn [snd] in Hin.
    rewrite String.eqb_refl in Hin. discriminate.
Qed.

Lemma DAILY_names_NoDup : NoDup (map fst NoaaGhcnParameter.DAILY).
Proof. apply ParameterFacts.distinctb_NoDup. vm_compute. reflexivity. Qed.

(** Every code of the table is lowercase. *)
Lemma DAILY_codes_lowercase (n v : string) :
  In (n, v) NoaaGhcnParameter.DAILY -> PyStr.lower v = v.
Proof.
  assert (H : forallb (fun e => String.eqb (PyStr.lower (snd e)) (snd e))
                NoaaGhcnParameter.DAILY = true)
    by (vm_compute; reflexivity).
  rewrite forallb_forall in H. intros Hin.
  apply String.eqb_eq. exact (H _ Hin).
Qed.

End EnumFacts.

(** X8: in [NoaaGhcnParameter.DAILY] looking a member up by name and
    looking it up by value are inverse to each other: the member named [n]
    has value [v] exactly when the member of value [v] is named [n]; names
    are not repeated either. *)
Theorem ghcn_daily_name_value_round_trip :
  forall n v : string,
    Stated.enum_by_name NoaaGhcnParameter.DAILY n = Some v
    <-> Stated.enum_by_value NoaaGhcnParameter.DAILY v = Some n.
Proof.
  intros n v. split; intros H.
  - apply EnumFacts.In_enum_by_value;
      [exact ParameterFacts.DAILY_values_NoDup|].
    now apply EnumFacts.find_fst_In.
  - apply EnumFacts.In_enum_by_name; [exact EnumFacts.DAILY_names_NoDup|].
    now apply EnumFacts.find_snd_In.
Qed.

Lemma ghcn_daily_name_value_round_trip_witness :
  Stated.enum_by_value NoaaGhcnParameter.DAILY "tobs"
  = Some "TEMPERATURE_AIR_200"%string.
Proof.
  apply (proj1 (ghcn_daily_name_value_round_trip
                  "TEMPERATURE_AIR_200" "tobs")).
  vm_compute. reflexivity.
Defined.

(** X9: the soil temperature members of [NoaaGhcnParameter.DAILY] follow
    the coding scheme of the docstring: for every ground cover code 0 to 8,
    every depth code 1 to 7 and both extremes, the member
    TEMPERATURE_SOIL_(MIN|MAX)_(cover)_(depth in cm) has the value
    s(n|x)(cover code)(depth code); these 126 members are in the table in
    the order of the scheme, and no other member has a code made of sn or
    sx and two digits. *)
Theorem ghcn_daily_soil_scheme :
  forall (maximum : bool) (cover depth : nat),
    cover <= 8 -> 1 <= depth <= 7 ->
    Stated.enum_by_name NoaaGhcnParameter.DAILY
      (Stated.soil_name maximum cover depth)
    = Some (Stated.soil_code maximum cover depth)
    /\ filter (fun e => Stated.is_soil_code (snd e)) NoaaGhcnParameter.DAILY
       = Stated.soil_scheme
    /\ List.length Stated.soil_scheme = 126.
Proof.
  intros maximum cover depth Hcover Hdepth.
  split; [|split; vm_compute; reflexivity].
  assert (Hc : In cover (seq 0 9)) by (apply in_seq; lia).
  assert (Hd : In depth (seq 1 7)) by (apply in_seq; lia).
  clear Hcover Hdepth.
  assert (Hall : forallb (fun c =>
             forallb (fun m =>
               forallb (fun d =>
                 match Stated.enum_by_name NoaaGhcnParameter.DAILY
                         (Stated.soil_name m c d) with
                 | Some v => String.eqb v (Stated.soil_code m c d)
                 | None => false
                 end) (seq 1 7)) [false; true]) (seq 0 9) = true)
    by (vm_compute; reflexivity).
  rewrite forallb_forall in Hall. specialize (Hall _ Hc).
  rewrite forallb_forall in Hall.
  assert (Hm : In maximum [false; true]) by (destruct maximum; simpl; auto).
  specialize (Hall _ Hm).
  rewrite forallb_forall in Hall. specialize (Hall _ Hd).
  destruct (Stated.enum_by_name _ _) as [v|]; [|discriminate].
  apply String.eqb_eq in Hall. now subst.
Qed.

Lemma ghcn_daily_soil_scheme_witness :
  Stated.enum_by_name NoaaGhcnParameter.DAILY
    "TEMPERATURE_SOIL_MIN_BARE_GROUND_100" = Some "sn35"%string.
Proof.
  refine (proj1 (@ghcn_daily_soil_scheme false 3 5 _ _)); lia.
Defined.

(* ------------------------------------------------------------------ *)
(** ** The value collector: failures, requests, shape *)

Module CollectFacts.

Import Pandas.
Import Samples Stated.

Lemma lower_upper_char (c : ascii) :
  PyStr.lower_char (PyStr.upper_char c) = PyStr.lower_char c.
Proof. PyStrFacts.by_cases_on_char c. Qed.

Lemma lower_upper (s : string) : PyStr.lower (PyStr.upper s) = PyStr.lower s.
Proof.
  induction s as [|c r IH]; simpl; [reflexivity|].
  now rewrite lower_upper_char, IH.
Qed.

(** Strings that are equal after uppercasing are equal after
    lowercasing. *)
Lemma upper_eq_lower_eq (s t : string) :
  PyStr.upper s = PyStr.upper t -> PyStr.lower s = PyStr.lower t.
Proof.
  intros H. rewrite <- (lower_upper s), <- (lower_upper t). now rewrite H.
Qed.

Lemma set_nth_length {A} (i : nat) (x : A) (xs : list A) :
  List.length (set_nth i x xs) = List.length xs.
Proof.
  revert i. induction xs as [|y xs IH]; intros [|i]; simpl; auto.
Qed.

Lemma collected_row_length (r : list cell) :
  List.length r = 8 -> List.length (collected_row r) = 5.
Proof.
  intros H. unfold collected_row.
  rewrite set_nth_length, length_firstn. lia.
Qed.

(** The third cell of a collected row. *)
Lemma collected_row_code (r : list cell) (c : cell) :
  nth_error r 2 = Some c ->
  nth_error (collected_row r) 2 = Some (lower_cell c).
Proof.
  destruct r as [|a [|b [|c0 r]]]; simpl; try discriminate.
  intros H. inversion H. subst. unfold collected_row. simpl.
  destruct r as [|d [|e r]]; reflexivity.
Qed.

(** The frame the collector returns, from the frame [read_csv] gave. *)
Lemma collect_ok (read_csv : Io.bytes -> result DataFrame)
    (station_id parameter dataset : string) (w : Net.world)
    (file : Io.bytes) (raw out : DataFrame) :
  Net.remote w (NoaaGhcnValues._base_url station_id) = Some file ->
  read_csv file = Ok raw ->
  rectangular raw ->
  fst (NoaaGhcnValues._collect_station_parameter read_csv station_id
         parameter dataset w) = Ok out ->
  List.length (columns raw) = 8
  /\ out = mkDataFrame NoaaGhcnValues.columns
             (map collected_row (rows raw)).
Proof.
  intros Hfile Hcsv Hrect.
  rewrite ValuesFacts.collect_unfold, Hfile, Hcsv. cbn [fst bind_result].
  intros Hout.
  assert (H8 := ValuesFacts.shape_ok_eight_columns _ Hout).
  rewrite (ValuesFacts.shape_eight_columns Hrect H8) in Hout.
  destruct (has_str_accessor _); [|discriminate].
  inversion Hout. auto.
Qed.

End CollectFacts.

(** X10: a by-station file whose number of columns is not eight makes the
    collector raise [ValueError], whatever the file holds: the five column
    names do not fit what is left after the last three columns are
    dropped. *)
Theorem collect_wrong_width_value_error :
  forall (read_csv : Io.bytes -> result Pandas.DataFrame)
         (station_id parameter dataset : string) (w : Net.world)
         (file : Io.bytes) (raw : Pandas.DataFrame),
    Net.remote w (NoaaGhcnValues._base_url station_id) = Some file ->
    read_csv file = Ok raw ->
    List.length (Pandas.columns raw) <> 8 ->
    fst (NoaaGhcnValues._collect_station_parameter read_csv station_id
           parameter dataset w) = Raise ValueError.
Proof.
  intros read_csv station_id parameter dataset w file raw Hfile Hcsv Hwidth.
  rewrite ValuesFacts.collect_unfold, Hfile, Hcsv. cbn [fst bind_result].
  rewrite ValuesFacts.shape_unfold.
  destruct (Nat.eqb 5 (List.length (Pandas.columns raw) - 3)) eqn:E;
    [|reflexivity].
  apply Nat.eqb_eq in E. lia.
Qed.

Lemma collect_wrong_width_value_error_witness :
  fst (NoaaGhcnValues._collect_station_parameter
         (fun _ => Ok Samples.nine_column_file)
         "GME00111464" "precipitation_height" "daily"
         Samples.one_station_world)
  = Raise ValueError.
Proof.
  refine (@collect_wrong_width_value_error
            (fun _ => Ok Samples.nine_column_file)
            "GME00111464" "precipitation_height" "daily"
            Samples.one_station_world [] Samples.nine_column_file
            eq_refl eq_refl _).
  simpl. lia.
Defined.

(** X11: a by-station file of eight columns that has rows but no string
    in its third column makes the collector raise [AttributeError]: the
    column has no [.str] accessor to lowercase it with. *)
Theorem collect_numeric_codes_attribute_error :
  forall (read_csv : Io.bytes -> result Pandas.DataFrame)
         (station_id parameter dataset : string) (w : Net.world)
         (file : Io.bytes) (raw : Pandas.DataFrame),
    Net.remote w (NoaaGhcnValues._base_url station_id) = Some file ->
    read_csv file = Ok raw ->
    Pandas.rectangular raw ->
    List.length (Pandas.columns raw) = 8 ->
    Pandas.rows raw <> [] ->
    (forall r, In r (Pandas.rows raw) ->
       Pandas.is_str (nth 2 r Pandas.CNaN) = false) ->
    fst (NoaaGhcnValues._collect_station_parameter read_csv station_id
           parameter dataset w) = Raise AttributeError.
Proof.
  intros read_csv station_id parameter dataset w file raw
         Hfile Hcsv Hrect H8 Hrows Hnum.
  rewrite ValuesFacts.collect_unfold, Hfile, Hcsv. cbn [fst bind_result].
  rewrite (ValuesFacts.shape_eight_columns Hrect H8).
  assert (Hacc : Pandas.has_str_accessor (Stated.parameter_codes raw)
                 = false).
  { unfold Stated.parameter_codes, Pandas.has_str_accessor.
    destruct (Pandas.rows raw) as [|r rs] eqn:E; [congruence|].
    cbn [map]. rewrite <- (map_cons (fun r => nth 2 r Pandas.CNaN)).
    destruct (existsb Pandas.is_str _) eqn:Ex; [|reflexivity].
    apply existsb_exists in Ex. destruct Ex as (c & Hc & Hstr).
    apply in_map_iff in Hc. destruct Hc as (r0 & <- & Hr0).
    rewrite (Hnum r0 Hr0) in Hstr. discriminate. }
  now rewrite Hacc.
Qed.

Lemma collect_numeric_codes_attribute_error_witness :
  fst (NoaaGhcnValues._collect_station_parameter
         (fun _ => Ok Samples.numeric_codes_file)
         "GME00111464" "precipitation_height" "daily"
         Samples.one_station_world)
  = Raise AttributeError.
Proof.
  refine (@collect_numeric_codes_attribute_error
            (fun _ => Ok Samples.numeric_codes_file)
            "GME00111464" "precipitation_height" "daily"
            Samples.one_station_world [] Samples.numeric_codes_file
            eq_refl eq_refl _ eq_refl _ _).
  - repeat constructor.
  - discriminate.
  - intros r [<-|[]]. reflexivity.
Defined.

(** X12: a parameter code of the file that equals, up to case, the agency
    code of a member of [NoaaGhcnParameter.DAILY] comes out of the
    collector as that agency code exactly, so that the collected codes can
    be compared with the values of the enumeration. *)
Theorem collected_codes_match_daily :
  forall (read_csv : Io.bytes -> result Pandas.DataFrame)
         (station_id parameter dataset : string) (w : Net.world)
         (file : Io.bytes) (raw out : Pandas.DataFrame)
         (i : nat) (r : list Pandas.cell) (s name code : string),
    Net.remote w (NoaaGhcnValues._base_url station_id) = Some file ->
    read_csv file = Ok raw ->
    Pandas.rectangular raw ->
    fst (NoaaGhcnValues._collect_station_parameter read_csv station_id
           parameter dataset w) = Ok out ->
    nth_error (Pandas.rows raw) i = Some r ->
    nth_error r 2 = Some (Pandas.CStr s) ->
    In (name, code) NoaaGhcnParameter.DAILY ->
    PyStr.upper s = PyStr.upper code ->
    Pandas.at_ i (Pandas.LStr "parameter_code") out
    = Some (Pandas.CStr code).
Proof.
  intros read_csv station_id parameter dataset w file raw out i r s name code
         Hfile Hcsv Hrect Hout Hr Hs Hin Hup.
  destruct (CollectFacts.collect_ok _ _ _ _ _ Hfile Hcsv Hrect Hout)
    as [_ ->].
  unfold Pandas.at_. cbn [Pandas.columns Pandas.rows].
  change (Pandas.get_loc (Pandas.LStr "parameter_code")
            NoaaGhcnValues.columns) with (Some 2).
  rewrite nth_error_map, Hr. cbn [option_map].
  rewrite (CollectFacts.collected_row_code _ Hs). cbn [Pandas.lower_cell].
  rewrite (CollectFacts.upper_eq_lower_eq _ _ Hup).
  now rewrite (EnumFacts.DAILY_codes_lowercase Hin).
Qed.

Lemma collected_codes_match_daily_witness :
  Pandas.at_ 1 (Pandas.LStr "parameter_code")
    (Pandas.mkDataFrame NoaaGhcnValues.columns
       (map Stated.collected_row (Pandas.rows Samples.mixed_case_file)))
  = Some (Pandas.CStr "tmin").
Proof.
  refine (@collected_codes_match_daily
            (fun _ => Ok Samples.mixed_case_file)
            "GME00111464" "precipitation_height" "daily"
            Samples.one_station_world [] Samples.mixed_case_file _
            1 _ "Tmin" "TEMPERATURE_AIR_MIN_200" "tmin"
            eq_refl eq_refl _ eq_refl eq_refl eq_refl _ eq_refl).
  - repeat constructor.
  - do 4 right. left. reflexivity.
Defined.

(** X13: a frame that the collector returns is well formed: it has as many
    rows as the file, and every row has exactly five cells, one per
    column. *)
Theorem collected_frame_rectangular :
  forall (read_csv : Io.bytes -> result Pandas.DataFrame)
         (station_id parameter dataset : string) (w : Net.world)
         (file : Io.bytes) (raw out : Pandas.DataFrame),
    Net.remote w (NoaaGhcnValues._base_url station_id) = Some file ->
    read_csv file = Ok raw ->
    Pandas.rectangular raw ->
    fst (NoaaGhcnValues._collect_station_parameter read_csv station_id
           parameter dataset w) = Ok out ->
    Pandas.rectangular out
    /\ List.length (Pandas.columns out) = 5
    /\ List.length (Pandas.rows out) = List.length (Pandas.rows raw).
Proof.
  intros read_csv station_id parameter dataset w file raw out
         Hfile Hcsv Hrect Hout.
  destruct (CollectFacts.collect_ok _ _ _ _ _ Hfile Hcsv Hrect Hout)
    as [H8 ->].
  cbn [Pandas.columns Pandas.rows]. split; [|split].
  - unfold Pandas.rectangular. cbn [Pandas.columns Pandas.rows].
    apply Forall_forall. intros r' Hr'. apply in_map_iff in Hr'.
    destruct Hr' as (r & <- & Hr).
    unfold Pandas.rectangular in Hrect. rewrite Forall_forall in Hrect.
    apply CollectFacts.collected_row_length. now rewrite (Hrect r Hr).
  - reflexivity.
  - apply length_map.
Qed.

Lemma collected_frame_rectangular_witness :
  Pandas.rectangular
    (Pandas.mkDataFrame NoaaGhcnValues.columns
       (map Stated.collected_row (Pandas.rows Samples.mixed_case_file)))
  /\ List.length NoaaGhcnValues.columns = 5
  /\ List.length (map Stated.collected_row
                     (Pandas.rows Samples.mixed_case_file))
     = List.length (Pandas.rows Samples.mixed_case_file).
Proof.
  refine (@collected_frame_rectangular
            (fun _ => Ok Samples.mixed_case_file)
            "GME00111464" "precipitation_height" "daily"
            Samples.one_station_world [] Samples.mixed_case_file _
            eq_refl eq_refl _ eq_refl).
  repeat constructor.
Defined.

(* ------------------------------------------------------------------ *)
(** ** Slices and stripped fields *)

Module FieldFacts.

Import PyStr.

Lemma substring_empty (a n : nat) : substring a n EmptyString = EmptyString.
Proof. destruct a, n; reflexivity. Qed.

(** A slice that starts at or after the end of the string is empty. *)
Lemma substring_short (a n : nat) (s : string) :
  String.length s <= a -> substring a n s = EmptyString.
Proof.
  revert s. induction a as [|a IH]; intros [|c s] H.
  - apply substring_empty.
  - simpl in H. exfalso. lia.
  - apply substring_empty.
  - simpl in *. apply IH. lia.
Qed.

Lemma substring_length_le (a n : nat) (s : string) :
  String.length (substring a n s) <= n.
Proof.
  revert n s. induction a as [|a IH].
  - induction n as [|n IHn]; intros [|c s]; simpl; try lia.
    specialize (IHn s). lia.
  - intros n [|c s]; simpl; [lia|apply IH].
Qed.

(** A slice depends on the characters in its range only. *)
Lemma substring_ext (a : nat) :
  forall (n : nat) (s1 s2 : string),
    (forall i, a <= i < a + n -> String.get i s1 = String.get i s2) ->
    substring a n s1 = substring a n s2.
Proof.
  induction a as [|a IH].
  - induction n as [|n IHn]; intros s1 s2 H.
    + now destruct s1, s2.
    + assert (H0 := H 0 ltac:(lia)).
      destruct s1 as [|c1 s1], s2 as [|c2 s2]; simpl in *;
        try discriminate; [reflexivity|].
      inversion H0; subst. f_equal. apply IHn.
      intros i Hi. apply (H (S i)). lia.
  - intros n s1 s2 H.
    assert (Hshift : forall t1 t2,
               (forall i, S a <= i < S a + n ->
                  String.get (pred i) t1 = String.get (pred i) t2) ->
               forall i, a <= i < a + n ->
                  String.get i t1 = String.get i t2).
    { intros t1 t2 Ht i Hi. apply (Ht (S i)). lia. }
    destruct s1 as [|c1 s1], s2 as [|c2 s2]; cbn [substring].
    + reflexivity.
    + rewrite <- (substring_empty a n). apply IH. apply Hshift.
      intros i Hi. specialize (H i Hi). destruct i; [lia|].
      simpl in *. rewrite <- H. now destruct i.
    + rewrite <- (substring_empty a n). apply IH. apply Hshift.
      intros i Hi. specialize (H i Hi). destruct i; [lia|].
      simpl in *. rewrite H. now destruct i.
    + apply IH. apply Hshift.
      intros i Hi. specialize (H i Hi). destruct i; [lia|exact H].
Qed.

Lemma slice_ext (a b : nat) (s1 s2 : string) :
  (forall i, a <= i < b -> String.get i s1 = String.get i s2) ->
  slice a b s1 = slice a b s2.
Proof.
  intros H. unfold slice. apply substring_ext. intros i Hi. apply H. lia.
Qed.

(** *** Stripping *)

Lemma lstrip_length (d : list ascii) (s : string) :
  String.length (lstrip d s) <= String.length s.
Proof.
  induction s as [|c s IH]; simpl; [lia|].
  destruct (char_in d c); simpl; lia.
Qed.

Lemma rstrip_length (d : list ascii) (s : string) :
  String.length (rstrip d s) <= String.length s.
Proof.
  induction s as [|c s IH]; simpl; [lia|].
  destruct (rstrip d s) as [|x r]; [destruct (char_in d c)|]; simpl in *; lia.
Qed.

Lemma strip_length (d : list ascii) (s : string) :
  String.length (strip d s) <= String.length s.
Proof.
  unfold strip. pose proof (rstrip_length d (lstrip d s)).
  pose proof (lstrip_length d s). lia.
Qed.

(** What is left of [lstrip] does not begin with a stripped character. *)
Lemma lstrip_head (d : list ascii) (s : string) (c : ascii) (r : string) :
  lstrip d s = String c r -> char_in d c = false.
Proof.
  induction s as [|x s IH]; simpl; [discriminate|].
  destruct (char_in d x) eqn:E; [exact IH|].
  intros H. inversion H; subst. exact E.
Qed.

(** [rstrip] keeps a first character that is not stripped. *)
Lemma rstrip_head (d : list ascii) (c : ascii) (r : string) :
  char_in d c = false ->
  exists r', rstrip d (String c r) = String c r'.
Proof.
  intros H. simpl. destruct (rstrip d r) as [|x r'].
  - rewrite H. eauto.
  - eauto.
Qed.

Lemma rstrip_idem (d : list ascii) (s : string) :
  rstrip d (rstrip d s) = rstrip d s.
Proof.
  induction s as [|c s IH]; [reflexivity|].
  cbn [rstrip]. destruct (rstrip d s) as [|x r] eqn:E.
  - destruct (char_in d c) eqn:Ec; [reflexivity|].
    cbn [rstrip]. now rewrite Ec.
  - change (rstrip d (String c (String x r)))
      with (match rstrip d (String x r) with
            | EmptyString => if char_in d c then EmptyString
                             else String c EmptyString
            | String y r' => String c (String y r')
            end).
    now rewrite IH.
Qed.

Lemma lstrip_fixed (d : list ascii) (c : ascii) (r : string) :
  char_in d c = false -> lstrip d (String c r) = String c r.
Proof. intros H. simpl. now rewrite H. Qed.

(** Stripping twice is stripping once. *)
Lemma strip_idem (d : list ascii) (s : string) :
  strip d (strip d s) = strip d s.
Proof.
  unfold strip. destruct (lstrip d s) as [|c r] eqn:E; [reflexivity|].
  apply lstrip_head in E.
  destruct (@rstrip_head d c r E) as [r' Hr']. rewrite Hr'.
  rewrite (@lstrip_fixed d c r' E). rewrite <- Hr'. apply rstrip_idem.
Qed.

(** A text cell is the field, which is none of the missing-value
    markers. *)
Lemma str_cell_CStr (field s : string) :
  Pandas.str_cell field = Pandas.CStr s ->
  s = field /\ str_in field Pandas.STR_NA_VALUES = false.
Proof.
  unfold Pandas.str_cell.
  destruct (str_in field Pandas.STR_NA_VALUES); [discriminate|].
  intros H. inversion H. auto.
Qed.

End FieldFacts.

(* ------------------------------------------------------------------ *)
(** ** The station listing: what [_all] returns *)

Module AllFacts.

Import Pandas.
Import Samples Stated.

Lemma listing_cells_length (line : string) :
  List.length (listing_cells line) = 5.
Proof. reflexivity. Qed.

(** The rows of a parsed listing are the cells of the lines it keeps. *)
Lemma parse_listing_inv (lines : list string) (df : DataFrame) :
  NoaaGhcnRequest.parse_listing lines = Ok df ->
  df = mkDataFrame NoaaGhcnRequest.listing_columns
         (map listing_cells (filter has_fields lines)).
Proof.
  rewrite ListingFacts.parse_listing_rows.
  destruct (filter has_fields lines); [discriminate|].
  intros H. now inversion H.
Qed.

(** The cell of a line under the column specification numbered [j]. *)
Lemma listing_cells_nth (line : string) (j a b : nat) :
  nth_error NoaaGhcnRequest._listing_colspecs j = Some (a, b) ->
  nth_error (listing_cells line) j
  = Some (str_cell (PyStr.strip fwf_delimiter (PyStr.slice a b line))).
Proof.
  destruct j as [|[|[|[|[|j]]]]]; simpl; intros H; inversion H; subst;
    try reflexivity.
  now destruct j.
Qed.

Lemma nth_error_In_cells (line : string) (c : cell) :
  In c (listing_cells line) ->
  exists j a b,
    nth_error NoaaGhcnRequest._listing_colspecs j = Some (a, b)
    /\ c = str_cell (PyStr.strip fwf_delimiter (PyStr.slice a b line)).
Proof.
  intros [<-|[<-|[<-|[<-|[<-|[]]]]]].
  - exists 0, 0, 11. auto.
  - exists 1, 12, 20. auto.
  - exists 2, 21, 30. auto.
  - exists 3, 31, 37. auto.
  - exists 4, 41, 71. auto.
Qed.

Lemma covered_lt (i : nat) : covered i = true -> i < 71.
Proof.
  unfold covered. rewrite existsb_exists. intros ([a b] & Hin & Hab).
  cbn [fst snd] in Hab. apply andb_true_iff in Hab. destruct Hab as [_ Hb].
  apply Nat.ltb_lt in Hb.
  destruct Hin as [H|[H|[H|[H|[H|[]]]]]]; inversion H; subst; lia.
Qed.

(** Agreement on the covered positions, as a test that runs. *)
Lemma agree_on_columns (l1 l2 : string) :
  forallb (fun i => negb (covered i)
                    || option_ascii_eqb (String.get i l1) (String.get i l2))
          (seq 0 71) = true ->
  forall i, covered i = true -> String.get i l1 = String.get i l2.
Proof.
  rewrite forallb_forall. intros Hall i Hi.
  assert (Hin : In i (seq 0 71)) by (apply in_seq; apply covered_lt in Hi; lia).
  specialize (Hall i Hin). rewrite Hi in Hall. cbn [negb orb] in Hall.
  destruct (String.get i l1) as [a|], (String.get i l2) as [b|];
    simpl in Hall; try discriminate; [|reflexivity].
  apply Ascii.eqb_eq in Hall. now subst.
Qed.

Lemma covered_range (j a b i : nat) :
  nth_error NoaaGhcnRequest._listing_colspecs j = Some (a, b) ->
  a <= i < b -> covered i = true.
Proof.
  intros Hj Hi. unfold covered. apply existsb_exists.
  exists (a, b). split; [now apply nth_error_In in Hj|].
  cbn [fst snd]. apply andb_true_iff. split.
  - apply Nat.leb_le. lia.
  - apply Nat.ltb_lt. lia.
Qed.

End AllFacts.

Module UrlFacts.

Lemma append_length (s t : string) :
  String.length (s ++ t) = String.length s + String.length t.
Proof. induction s as [|c s IH]; simpl; [reflexivity|now rewrite IH]. Qed.

Lemma append_inv_head (p s t : string) :
  (p ++ s = p ++ t)%string -> s = t.
Proof.
  induction p as [|c p IH]; simpl; intros H; [exact H|].
  inversion H. now apply IH.
Qed.

Lemma append_inv_tail (t : string) :
  forall s1 s2, (s1 ++ t = s2 ++ t)%string -> s1 = s2.
Proof.
  induction s1 as [|c1 s1 IH]; intros [|c2 s2] H; simpl in H.
  - reflexivity.
  - apply (f_equal String.length) in H. simpl in H.
    rewrite append_length in H. lia.
  - apply (f_equal String.length) in H. simpl in H.
    rewrite append_length in H. lia.
  - inversion H. f_equal. now apply IH.
Qed.

End UrlFacts.

(** X14: no text cell of the station listing begins or ends with a blank,
    and none is empty or one of the markers of a missing value: such
    fields come out as missing values instead. *)
Theorem listing_cells_stripped :
  forall (lines : list string) (df : Pandas.DataFrame)
         (r : list Pandas.cell) (s : string),
    NoaaGhcnRequest.parse_listing lines = Ok df ->
    In r (Pandas.rows df) ->
    In (Pandas.CStr s) r ->
    PyStr.strip Pandas.fwf_delimiter s = s
    /\ s <> EmptyString
    /\ PyStr.str_in s Pandas.STR_NA_VALUES = false.
Proof.
  intros lines df r s Hdf Hr Hs.
  apply AllFacts.parse_listing_inv in Hdf. subst df.
  cbn [Pandas.rows] in Hr. apply in_map_iff in Hr.
  destruct Hr as (line & <- & _).
  apply AllFacts.nth_error_In_cells in Hs.
  destruct Hs as (j & a & b & _ & Hcell).
  symmetry in Hcell. apply FieldFacts.str_cell_CStr in Hcell.
  destruct Hcell as [-> Hna].
  split; [apply FieldFacts.strip_idem|]. split; [|exact Hna].
  intros Hempty. rewrite Hempty in Hna. discriminate.
Qed.

Lemma listing_cells_stripped_witness :
  PyStr.strip Pandas.fwf_delimiter "AACHEN" = "AACHEN"%string
  /\ "AACHEN"%string <> EmptyString
  /\ PyStr.str_in "AACHEN" Pandas.STR_NA_VALUES = false.
Proof.
  refine (@listing_cells_stripped [Samples.ghcnd_row] _ Samples.aachen
            "AACHEN" eq_refl _ _).
  - left. reflexivity.
  - do 4 right. left. reflexivity.
Defined.

(** X15: a text cell of the station listing is never longer than its
    column is wide: 11 characters for station_id, 8 for latitude, 9 for
    longitude, 6 for height, 30 for name. *)
Theorem listing_cells_within_width :
  forall (lines : list string) (df : Pandas.DataFrame)
         (r : list Pandas.cell) (j : nat) (s : string),
    NoaaGhcnRequest.parse_listing lines = Ok df ->
    In r (Pandas.rows df) ->
    nth_error r j = Some (Pandas.CStr s) ->
    String.length s <= nth j [11; 8; 9; 6; 30] 0.
Proof.
  intros lines df r j s Hdf Hr Hs.
  apply AllFacts.parse_listing_inv in Hdf. subst df.
  cbn [Pandas.rows] in Hr. apply in_map_iff in Hr.
  destruct Hr as (line & <- & _).
  assert (Hbound : forall a b field,
             Pandas.str_cell
               (PyStr.strip Pandas.fwf_delimiter (PyStr.slice a b line))
             = Pandas.CStr field ->
             String.length field <= b - a).
  { intros a b field Hcell. apply FieldFacts.str_cell_CStr in Hcell.
    destruct Hcell as [-> _].
    pose proof (FieldFacts.strip_length Pandas.fwf_delimiter
                  (PyStr.slice a b line)).
    pose proof (FieldFacts.substring_length_le a (b - a) line).
    unfold PyStr.slice in *. lia. }
  destruct j as [|[|[|[|[|j]]]]]; cbn [nth_error Stated.listing_cells] in Hs;
    try (inversion Hs as [Hcell]; apply Hbound in Hcell; simpl in *; lia).
  destruct j; discriminate.
Qed.

Lemma listing_cells_within_width_witness :
  String.length "GME00111464" <= nth 0 [11; 8; 9; 6; 30] 0.
Proof.
  refine (@listing_cells_within_width [Samples.ghcnd_row] _ Samples.aachen
            0 "GME00111464" eq_refl _ eq_refl).
  left. reflexivity.
Defined.

(** X16: the parse of a listing line depends only on the characters in
    the five column ranges: two lines that agree there give the same row.
    What stands at positions 11, 20, 30, 37 to 40 (with the state code)
    and from 71 on is dropped. *)
Theorem listing_ignores_uncovered :
  forall l1 l2 : string,
    (forall i, Stated.covered i = true ->
       String.get i l1 = String.get i l2) ->
    NoaaGhcnRequest.parse_listing [l1] = NoaaGhcnRequest.parse_listing [l2].
Proof.
  intros l1 l2 Hagree.
  assert (Hslice : forall j a b,
             nth_error NoaaGhcnRequest._listing_colspecs j = Some (a, b) ->
             PyStr.slice a b l1 = PyStr.slice a b l2).
  { intros j a b Hj. apply FieldFacts.slice_ext. intros i Hi.
    apply Hagree. exact (AllFacts.covered_range j Hj Hi). }
  assert (Hfields :
            Pandas.fwf_fields NoaaGhcnRequest._listing_colspecs l1
            = Pandas.fwf_fields NoaaGhcnRequest._listing_colspecs l2).
  { unfold Pandas.fwf_fields, NoaaGhcnRequest._listing_colspecs.
    cbn [map].
    rewrite (Hslice 0 0 11 eq_refl), (Hslice 1 12 20 eq_refl),
      (Hslice 2 21 30 eq_refl), (Hslice 3 31 37 eq_refl),
      (Hslice 4 41 71 eq_refl).
    reflexivity. }
  unfold NoaaGhcnRequest.parse_listing, Pandas.read_fwf. cbn [map].
  now rewrite Hfields.
Qed.

Lemma listing_ignores_uncovered_witness :
  NoaaGhcnRequest.parse_listing [Samples.state_row]
  = NoaaGhcnRequest.parse_listing [Samples.stateless_row].
Proof.
  apply listing_ignores_uncovered.
  apply AllFacts.agree_on_columns. vm_compute. reflexivity.
Defined.

(** X17: a listing line that ends before a column begins has a missing
    value in that column, and cutting it does not fail: a line of at most
    41 characters has no name, one of at most 31 no height either, and so
    on. *)
Theorem listing_short_line_missing :
  forall (line : string) (j a b : nat),
    nth_error NoaaGhcnRequest._listing_colspecs j = Some (a, b) ->
    String.length line <= a ->
    nth_error
      (map Pandas.str_cell
           (Pandas.fwf_fields NoaaGhcnRequest._listing_colspecs line)) j
    = Some Pandas.CNaN.
Proof.
  intros line j a b Hj Hshort.
  change (map Pandas.str_cell
            (Pandas.fwf_fields NoaaGhcnRequest._listing_colspecs line))
    with (Stated.listing_cells line).
  rewrite (AllFacts.listing_cells_nth line j Hj).
  unfold PyStr.slice.
  now rewrite (FieldFacts.substring_short (b - a) line Hshort).
Qed.

Lemma listing_short_line_missing_witness :
  nth_error
    (map Pandas.str_cell
         (Pandas.fwf_fields NoaaGhcnRequest._listing_colspecs
            Samples.short_row)) 2
  = Some Pandas.CNaN.
Proof.
  refine (@listing_short_line_missing Samples.short_row 2 21 30 eq_refl _).
  simpl. lia.
Defined.

(** X18: the by-station URL determines the station: two different station
    identifiers never give the same URL. *)
Theorem base_url_injective :
  forall s1 s2 : string,
    s1 <> s2 ->
    NoaaGhcnValues._base_url s1 <> NoaaGhcnValues._base_url s2.
Proof.
  intros s1 s2 Hne Heq. apply Hne.
  unfold NoaaGhcnValues._base_url in Heq.
  apply UrlFacts.append_inv_head in Heq.
  now apply UrlFacts.append_inv_tail in Heq.
Qed.

Lemma base_url_injective_witness :
  NoaaGhcnValues._base_url "GME00111464"
  <> NoaaGhcnValues._base_url "USW00094728".
Proof.
  apply base_url_injective. discriminate.
Defined.

(** X7: the generator is lazy: taking [j] chunks from it, none of them
    the last, reads the file object exactly [j] times, and what comes out
    is what those reads returned; nothing is read ahead. *)
Theorem read_in_chunks_lazy :
  forall (file_object : Type)
         (read : file_object -> Z -> Io.bytes * file_object)
         (chunk_size : Z) (j : nat) (f : file_object),
    (forall i, i < j -> Io.nth_read read i chunk_size f <> []) ->
    Stated.take read j chunk_size (Io.read_in_chunks f chunk_size)
    = (Io.reads read j chunk_size f,
       Io.Running (Io.after_reads read j chunk_size f)).
Proof.
  intros file_object read chunk_size j. unfold Io.read_in_chunks.
  induction j as [|j IH]; intros f Hne; [reflexivity|].
  assert (H0 : Io.nth_read read 0 chunk_size f <> []) by (apply Hne; lia).
  assert (Hrest : forall i, i < j ->
            Io.nth_read read i chunk_size (snd (read f chunk_size)) <> []).
  { intros i Hi. rewrite <- IoFacts.nth_read_S. apply Hne. lia. }
  specialize (IH _ Hrest).
  unfold Io.nth_read in H0. cbn [Io.after_reads] in H0.
  cbn [Stated.take Io.next Io.reads Io.after_reads].
  destruct (read f chunk_size) as [d f']. cbn [fst snd] in *.
  destruct d as [|b d]; [congruence|]. cbn [Io.falsy]. now rewrite IH.
Qed.

Lemma read_in_chunks_lazy_witness :
  Stated.take Io.BytesIO_read 2 1
    (Io.read_in_chunks (Io.mkBytesIO Samples.abc 0) 1)
  = ([[x61]; [x62]], Io.Running (Io.mkBytesIO Samples.abc 2)).
Proof.
  refine (@read_in_chunks_lazy Io.BytesIO Io.BytesIO_read 1 2
            (Io.mkBytesIO Samples.abc 0) _).
  intros [|[|i]] Hi; try discriminate. lia.
Defined.
